(** * Voynich API client: a shallow embedding of [docs/voynich_api_client.py]

    The client is a thin wrapper over the [requests] library.  The model
    keeps the program's own code (URL construction, method dispatch,
    argument validation, request bodies, error reporting, the command
    line driver) and treats the HTTP transport as a function from the
    request that is sent to what comes back.  Every network call and
    every line written to standard output is recorded in a trace, so
    that "no network call was made" is a statement about that trace.

    Python values are modelled as follows:
    - [str] as [string]; [str.upper] acts on the letters a-z, which is
      what it does on ASCII text;
    - [int] as [Z];
    - [dict] as an association list in insertion order;
    - JSON documents (and the Python values built from them) as [json];
      numbers are integers, there is no float in the model. *)

From Stdlib Require Import String Ascii List ZArith Lia Bool DecimalString.
Import ListNotations.
Local Open Scope list_scope.
Local Open Scope Z_scope.
Local Open Scope string_scope.

(** ** Python string operations used by the client *)

Module PyStr.

(** The character [/] and the newline. *)
Definition slash : ascii := "/"%char.
Definition newline : string := String (ascii_of_nat 10) EmptyString.

(** [s.rstrip(c)] for a one-character argument. *)
Fixpoint rstrip (c : ascii) (s : string) : string :=
  match s with
  | EmptyString => EmptyString
  | String a t =>
      match rstrip c t with
      | EmptyString => if Ascii.eqb a c then EmptyString else String a EmptyString
      | t' => String a t'
      end
  end.

(** [s.lstrip(c)] for a one-character argument. *)
Fixpoint lstrip (c : ascii) (s : string) : string :=
  match s with
  | EmptyString => EmptyString
  | String a t => if Ascii.eqb a c then lstrip c t else s
  end.

Definition upper_char (a : ascii) : ascii :=
  let n := nat_of_ascii a in
  if (97 <=? n)%nat && (n <=? 122)%nat then ascii_of_nat (n - 32) else a.

(** [s.upper()]. *)
Fixpoint upper (s : string) : string :=
  match s with
  | EmptyString => EmptyString
  | String a t => String (upper_char a) (upper t)
  end.

(** [str(n)] for an [int]. *)
Definition of_Z (n : Z) : string := NilZero.string_of_int (Z.to_int n).

(** [needle in hay]. *)
Fixpoint contains (needle hay : string) : bool :=
  if prefix needle hay then true
  else match hay with
       | EmptyString => false
       | String _ t => contains needle t
       end.

(** [sep.join(l)]. *)
Fixpoint join (sep : string) (l : list string) : string :=
  match l with
  | [] => EmptyString
  | [x] => x
  | x :: rest => x ++ sep ++ join sep rest
  end.

(** [s in l] for a list of strings. *)
Definition mem (s : string) (l : list string) : bool :=
  existsb (String.eqb s) l.

End PyStr.

(** ** JSON values and [json.dumps(_, indent=2)] *)

#[warnings="-register-all"]
Inductive json : Type :=
| JNull
| JBool (b : bool)
| JInt (n : Z)
| JStr (s : string)
| JList (items : list json)
| JObj (fields : list (string * json)).

(** A Python [dict] with string keys, in insertion order. *)
Definition dict : Type := list (string * json).

Module Dict.

(** [d[k] = v]: replaces the value of an existing key in place, appends
    a new key at the end. *)
Fixpoint set (d : dict) (k : string) (v : json) : dict :=
  match d with
  | [] => [(k, v)]
  | (k', v') :: rest =>
      if String.eqb k' k then (k', v) :: rest else (k', v') :: set rest k v
  end.

(** [d.get(k)]. *)
Fixpoint get (d : dict) (k : string) : option json :=
  match d with
  | [] => None
  | (k', v) :: rest => if String.eqb k' k then Some v else get rest k
  end.

(** [k in d]. *)
Definition has_key (d : dict) (k : string) : bool :=
  match get d k with Some _ => true | None => false end.

End Dict.

(** Python truthiness of a value: [None], [False], [0], [''], [[]] and
    [{}] are falsy. *)
Definition truthy (v : json) : bool :=
  match v with
  | JNull => false
  | JBool b => b
  | JInt n => negb (n =? 0)%Z
  | JStr s => negb (String.eqb s EmptyString)
  | JList l => match l with [] => false | _ => true end
  | JObj d => match d with [] => false | _ => true end
  end.

(** [v[k]] on a decoded document: defined on objects that have the key. *)
Definition subscript (v : json) (k : string) : option json :=
  match v with
  | JObj d => Dict.get d k
  | _ => None
  end.

Module JsonDumps.

Definition dquote : ascii := ascii_of_nat 34.
Definition backslash : ascii := ascii_of_nat 92.

Definition hex_digit (n : nat) : ascii :=
  if (n <? 10)%nat then ascii_of_nat (48 + n) else ascii_of_nat (87 + n).

(** One character of a string literal, as [json.dumps] writes it with
    [ensure_ascii] on. *)
Definition escape_char (a : ascii) : string :=
  let n := nat_of_ascii a in
  if (n =? 34)%nat then String backslash (String dquote EmptyString)
  else if (n =? 92)%nat then String backslash (String backslash EmptyString)
  else if (n =? 10)%nat then "\n"
  else if (n =? 13)%nat then "\r"
  else if (n =? 9)%nat then "\t"
  else if (n =? 8)%nat then "\b"
  else if (n =? 12)%nat then "\f"
  else if (32 <=? n)%nat && (n <=? 126)%nat then String a EmptyString
  else "\u00" ++ String (hex_digit (n / 16)) (String (hex_digit (n mod 16)) EmptyString).

Fixpoint escape (s : string) : string :=
  match s with
  | EmptyString => EmptyString
  | String a t => escape_char a ++ escape t
  end.

Definition quote (s : string) : string :=
  String dquote (escape s ++ String dquote EmptyString).

Fixpoint spaces (n : nat) : string :=
  match n with
  | O => EmptyString
  | S k => String " "%char (spaces k)
  end.

(** The line break and indentation written before an item at nesting
    depth [level], for [indent=2]. *)
Definition nl_indent (level : nat) : string :=
  PyStr.newline ++ spaces (2 * level).

Fixpoint dumps_at (level : nat) (v : json) : string :=
  match v with
  | JNull => "null"
  | JBool true => "true"
  | JBool false => "false"
  | JInt n => PyStr.of_Z n
  | JStr s => quote s
  | JList [] => "[]"
  | JList (x :: xs) =>
      "[" ++ nl_indent (S level) ++ dumps_at (S level) x
      ++ (fix rest (l : list json) : string :=
            match l with
            | [] => EmptyString
            | y :: ys =>
                "," ++ nl_indent (S level) ++ dumps_at (S level) y ++ rest ys
            end) xs
      ++ nl_indent level ++ "]"
  | JObj [] => "{}"
  | JObj ((k, x) :: xs) =>
      "{" ++ nl_indent (S level) ++ quote k ++ ": " ++ dumps_at (S level) x
      ++ (fix rest (l : list (string * json)) : string :=
            match l with
            | [] => EmptyString
            | (k', y) :: ys =>
                "," ++ nl_indent (S level) ++ quote k' ++ ": "
                ++ dumps_at (S level) y ++ rest ys
            end) xs
      ++ nl_indent level ++ "}"
  end.

(** [json.dumps(v, indent=2)]. *)
Definition dumps (v : json) : string := dumps_at 0 v.

End JsonDumps.

(** ** The [requests] library, as far as the client uses it *)

Module Requests.

Inductive verb : Type := GET | POST.

(** What [requests.get(url, headers=..., params=...)] and
    [requests.post(url, headers=..., json=...)] hand to the network. *)
Record Request : Type := mkRequest {
  method : verb;
  url : string;
  headers : list (string * string);
  params : option dict;
  json_body : option dict
}.

(** What [response.json()] gives: the decoded document, or the
    decoder's complaint when the body is not JSON. *)
Inductive decoded : Type :=
| Decodes (doc : json)
| DecodeFails (msg : string).

Record Response : Type := mkResponse {
  status_code : Z;
  reason : string;
  final_url : string;
  text : string;
  body : decoded
}.

(** The exceptions that travel through the client.  [HTTPError],
    [JSONDecodeError] and [TransportError] (a connection failure, a
    timeout, ...) are [requests.exceptions.RequestException]s;
    [ValueError] is not.  The error of [response.json()] is the one of
    requests 2.27 and later: a [RequestException] without a response. *)
Inductive exn : Type :=
| ValueError (msg : string)
| HTTPError (msg : string) (response : Response)
| JSONDecodeError (msg : string)
| TransportError (msg : string) (response : option Response).

Definition is_RequestException (e : exn) : bool :=
  match e with
  | ValueError _ => false
  | _ => true
  end.

(** [e.response]. *)
Definition exn_response (e : exn) : option Response :=
  match e with
  | HTTPError _ r => Some r
  | TransportError _ r => r
  | _ => None
  end.

(** [str(e)]. *)
Definition str (e : exn) : string :=
  match e with
  | ValueError m | HTTPError m _ | JSONDecodeError m | TransportError m _ => m
  end.

(** What the network does with a request. *)
Inductive reply : Type :=
| Answer (r : Response)
| Failure (msg : string) (response : option Response).

(** The status codes on which [raise_for_status] raises. *)
Definition is_error_status (c : Z) : bool := (400 <=? c)%Z && (c <? 600)%Z.

(** The message [raise_for_status] gives its [HTTPError]. *)
Definition http_error_msg (r : Response) : string :=
  PyStr.of_Z (status_code r)
  ++ (if (status_code r <? 500)%Z then " Client Error: " else " Server Error: ")
  ++ reason r ++ " for url: " ++ final_url r.

End Requests.
Import Requests.

(** ** Effects: a trace of network calls and printed lines *)

Inductive event : Type :=
| Sent (req : Request)
| Printed (line : string)
| HelpPrinted.

Inductive outcome (A : Type) : Type :=
| Returns (a : A)
| Raises (e : exn).
Arguments Returns {A} a.
Arguments Raises {A} e.

Definition IO (A : Type) : Type := (list event * outcome A)%type.

Definition ret {A} (a : A) : IO A := ([], Returns a).

Definition raise {A} (e : exn) : IO A := ([], Raises e).

Definition bind {A B} (m : IO A) (k : A -> IO B) : IO B :=
  match m with
  | (t, Returns a) => let (t', r) := k a in ((t ++ t')%list, r)
  | (t, Raises e) => (t, Raises e)
  end.

Notation "x <- m ;; k" := (bind m (fun x => k))
  (at level 61, m at next level, right associativity).
Notation "m ;; k" := (bind m (fun _ => k))
  (at level 61, right associativity).

(** [print(line)]. *)
Definition print (line : string) : IO unit := ([Printed line], Returns tt).

(** [try: m  except <catches> as e: handler e]. *)
Definition try_except {A} (m : IO A) (catches : exn -> bool)
    (handler : exn -> IO A) : IO A :=
  match m with
  | (t, Raises e) =>
      if catches e then let (t', r) := handler e in ((t ++ t')%list, r) else m
  | _ => m
  end.

(** The network calls of a trace, and its printed lines. *)
Definition sent (t : list event) : list Request :=
  flat_map (fun ev => match ev with Sent r => [r] | _ => [] end) t.

Definition printed (t : list event) : list string :=
  flat_map (fun ev => match ev with Printed l => [l] | _ => [] end) t.

Definition trace {A} (m : IO A) : list event := fst m.
Definition result {A} (m : IO A) : outcome A := snd m.

(** ** The client *)

Record VoynichApiClient : Type := mkClient {
  base_url : string;
  api_key : string;
  client_headers : list (string * string)
}.

(** [VoynichApiClient.__init__]. *)
Definition __init__ (base_url api_key : string) : VoynichApiClient :=
  {| base_url := PyStr.rstrip PyStr.slash base_url;
     api_key := api_key;
     client_headers := [("Authorization", "Bearer " ++ api_key);
                        ("Content-Type", "application/json")] |}.

(** The value a call uses for a parameter with a default. *)
Definition or_default {A} (given : option A) (dflt : A) : A :=
  match given with
  | Some a => a
  | None => dflt
  end.

Section Client.

(** The network the client talks to. *)
Variable transport : Request -> reply.

Definition send (req : Request) : IO Response :=
  match transport req with
  | Answer r => ([Sent req], Returns r)
  | Failure msg r => ([Sent req], Raises (TransportError msg r))
  end.

(** [requests.get(url, headers=headers, params=params)]. *)
Definition requests_get (url : string) (headers : list (string * string))
    (params : option dict) : IO Response :=
  send (mkRequest GET url headers params None).

(** [requests.post(url, headers=headers, json=data)]. *)
Definition requests_post (url : string) (headers : list (string * string))
    (data : option dict) : IO Response :=
  send (mkRequest POST url headers None data).

(** [response.raise_for_status()]. *)
Definition raise_for_status (r : Response) : IO unit :=
  if is_error_status (status_code r)
  then raise (HTTPError (http_error_msg r) r)
  else ret tt.

(** [response.json()]. *)
Definition response_json (r : Response) : IO json :=
  match body r with
  | Decodes doc => ret doc
  | DecodeFails msg => raise (JSONDecodeError msg)
  end.

(** The target of a request: [f"{self.base_url}/api/external/{endpoint.lstrip('/')}"]. *)
Definition request_url (self : VoynichApiClient) (endpoint : string) : string :=
  base_url self ++ "/api/external/" ++ PyStr.lstrip PyStr.slash endpoint.

(** The [except requests.exceptions.RequestException as e] block. *)
Definition report_and_reraise (e : exn) : IO json :=
  print ("API request error: " ++ str e) ;;
  match exn_response e with
  | Some r =>
      try_except
        (error_data <- response_json r ;;
         print ("Error details: " ++ JsonDumps.dumps error_data))
        (fun _ => true)
        (fun _ =>
           print ("Status code: " ++ PyStr.of_Z (status_code r)) ;;
           print ("Response body: " ++ text r))
  | None => ret tt
  end ;;
  raise e.

Definition _make_request (self : VoynichApiClient) (method endpoint : string)
    (params data : option dict) : IO json :=
  let url := request_url self endpoint in
  try_except
    (response <-
       (if String.eqb (PyStr.upper method) "GET"
        then requests_get url (client_headers self) params
        else if String.eqb (PyStr.upper method) "POST"
        then requests_post url (client_headers self) data
        else raise (ValueError ("Unsupported HTTP method: " ++ method))) ;;
     raise_for_status response ;;
     response_json response)
    is_RequestException
    report_and_reraise.

(** What the helper does with a request that goes out: the [try] block
    of [_make_request] once the method has been dispatched.  It is used
    to state lemmas about [_make_request], which does not call it. *)
Definition exchange (req : Request) : IO json :=
  try_except
    (response <- send req ;;
     raise_for_status response ;;
     response_json response)
    is_RequestException
    report_and_reraise.

Definition list_pages (self : VoynichApiClient) (offset limit : option Z)
    : IO json :=
  let offset := or_default offset 0%Z in
  let limit := or_default limit 20%Z in
  _make_request self "GET" "pages"
    (Some [("offset", JInt offset); ("limit", JInt limit)]) None.

Definition get_page (self : VoynichApiClient) (page_id : Z) : IO json :=
  _make_request self "GET" ("pages/" ++ PyStr.of_Z page_id) None None.

Definition list_symbols (self : VoynichApiClient) (page_id : Z) : IO json :=
  _make_request self "GET" ("symbols/page/" ++ PyStr.of_Z page_id) None None.

(** The body [create_symbol] builds.  [category] and [metadata] are
    Python values; [JNull] stands for [None], their default. *)
Definition create_symbol_data (page_id x y width height : Z)
    (category metadata : json) : dict :=
  let data := [("pageId", JInt page_id); ("x", JInt x); ("y", JInt y);
               ("width", JInt width); ("height", JInt height)] in
  let data := if truthy category then Dict.set data "category" category
              else data in
  let data := if truthy metadata then Dict.set data "metadata" metadata
              else data in
  data.

Definition create_symbol (self : VoynichApiClient)
    (page_id x y width height : Z) (category metadata : json) : IO json :=
  _make_request self "POST" "symbols" None
    (Some (create_symbol_data page_id x y width height category metadata)).

Definition list_annotations (self : VoynichApiClient) (page_id : Z)
    : IO json :=
  _make_request self "GET" ("annotations/page/" ++ PyStr.of_Z page_id)
    None None.

Definition create_annotation (self : VoynichApiClient)
    (page_id x y width height : Z) (content : string)
    (is_public : option bool) : IO json :=
  let is_public := or_default is_public true in
  let data := [("pageId", JInt page_id); ("x", JInt x); ("y", JInt y);
               ("width", JInt width); ("height", JInt height);
               ("content", JStr content); ("isPublic", JBool is_public)] in
  _make_request self "POST" "annotations" None (Some data).

Definition vote_on_annotation (self : VoynichApiClient) (annotation_id : Z)
    (vote_type : string) : IO json :=
  if negb (PyStr.mem vote_type ["upvote"; "downvote"])
  then raise (ValueError "Vote type must be 'upvote' or 'downvote'")
  else
    let data := [("voteType", JStr vote_type)] in
    _make_request self "POST"
      ("annotations/" ++ PyStr.of_Z annotation_id ++ "/vote") None (Some data).

Definition get_activity_feed (self : VoynichApiClient)
    (limit offset : option Z) : IO json :=
  let limit := or_default limit 20%Z in
  let offset := or_default offset 0%Z in
  _make_request self "GET" "activity-feed"
    (Some [("limit", JInt limit); ("offset", JInt offset)]) None.

Definition valid_timeframes : list string :=
  ["daily"; "weekly"; "monthly"; "alltime"].

Definition get_leaderboard (self : VoynichApiClient)
    (timeframe : option string) : IO json :=
  let timeframe := or_default timeframe "weekly" in
  if negb (PyStr.mem timeframe valid_timeframes)
  then raise (ValueError ("Timeframe must be one of: "
                          ++ PyStr.join ", " valid_timeframes))
  else
    _make_request self "GET" "leaderboard"
      (Some [("timeframe", JStr timeframe)]) None.

Definition get_usage (self : VoynichApiClient) : IO json :=
  _make_request self "GET" "usage" None None.

(** ** The command line driver *)

Definition format_json_output (data : json) : string := JsonDumps.dumps data.

(** A subcommand with its parsed arguments. *)
Inductive command : Type :=
| ListPages (offset limit : Z)
| GetPage (id : Z)
| ListSymbols (page_id : Z)
| CreateSymbol (page_id x y width height : Z) (category metadata : json)
| ListAnnotations (page_id : Z)
| CreateAnnotation (page_id x y width height : Z) (content : string)
    (public : bool)
| Vote (id : Z) (type : string)
| Activity (limit offset : Z)
| Leaderboard (timeframe : string)
| Usage.

(** What [parser.parse_args()] returns. *)
Record Namespace : Type := mkNamespace {
  args_base_url : string;
  args_api_key : string;
  args_command : option command
}.

Definition api_key_required : string :=
  "Error: API key is required. Provide it with --api-key or set the VOYNICH_API_KEY environment variable.".

(** The [if]/[elif] chain of [main] that runs the chosen command. *)
Definition execute (client : VoynichApiClient) (c : command) : IO json :=
  match c with
  | ListPages offset limit => list_pages client (Some offset) (Some limit)
  | GetPage id => get_page client id
  | ListSymbols page_id => list_symbols client page_id
  | CreateSymbol page_id x y width height category metadata =>
      create_symbol client page_id x y width height category metadata
  | ListAnnotations page_id => list_annotations client page_id
  | CreateAnnotation page_id x y width height content public =>
      create_annotation client page_id x y width height content (Some public)
  | Vote id type => vote_on_annotation client id type
  | Activity limit offset => get_activity_feed client (Some limit) (Some offset)
  | Leaderboard timeframe => get_leaderboard client (Some timeframe)
  | Usage => get_usage client
  end.

(** [main], from the parsed arguments on.  The value is what [main]
    returns: [None] for a bare [return]. *)
Definition main (args : Namespace) : IO (option Z) :=
  match args_command args with
  | None => ([HelpPrinted], Returns None)
  | Some c =>
      if String.eqb (args_api_key args) EmptyString
      then print api_key_required ;; ret None
      else
        let client := __init__ (args_base_url args) (args_api_key args) in
        try_except
          (result <- execute client c ;;
           print (format_json_output result) ;;
           ret (Some 0%Z))
          (fun _ => true)
          (fun e => print ("Error: " ++ str e) ;; ret (Some 1%Z))
  end.

(** The exit status [sys.exit(v)] gives the process: [None] is success. *)
Definition sys_exit (v : option Z) : Z :=
  match v with
  | None => 0%Z
  | Some n => n
  end.

(** [if __name__ == '__main__': sys.exit(main())]: the trace of the run
    and the exit status of the process. *)
Definition __main__ (args : Namespace) : list event * Z :=
  match main args with
  | (t, Returns v) => (t, sys_exit v)
  | (t, Raises _) => (t, 1%Z)
  end.

End Client.

(** ** The example workflow, [docs/example_api_usage.py]

    The script works on whatever documents the server returns, so the
    operations it applies to them ([v[k]], [v.get(k, d)], [len(v)],
    [v[:2]], iteration, formatting in an f-string) are modelled on every
    JSON value, with the error the interpreter raises where a value does
    not support the operation.  The text of such an error and the text
    the interpreter writes for a list or a dictionary belong to the
    interpreter: they are parameters of the model.  [time.sleep(1)] has
    no counterpart, time is not modelled. *)

Module ExampleUsage.

(** An operation a value may not support. *)
Inductive failed_op : Type :=
| Subscript (key : string)
| Attribute (name : string)
| Len
| Slice
| Iterate.

(** What the [except Exception] clauses of the script may catch: an
    error out of the client, a [KeyError] for a key a dictionary does not
    have, or the error of the interpreter for an unsupported operation. *)
Inductive error : Type :=
| ClientError (e : exn)
| KeyError (key : string)
| Unsupported (op : failed_op) (v : json).

Inductive attempt (A : Type) : Type :=
| Done (a : A)
| Failed (e : error).
Arguments Done {A} a.
Arguments Failed {A} e.

(** A piece of the script: the trace it leaves and how it ends. *)
Definition Script (A : Type) : Type := (list event * attempt A)%type.

Definition done {A} (a : A) : Script A := ([], Done a).

Definition fail {A} (e : error) : Script A := ([], Failed e).

Definition and_then {A B} (m : Script A) (k : A -> Script B) : Script B :=
  match m with
  | (t, Done a) => let (t', r) := k a in ((t ++ t')%list, r)
  | (t, Failed e) => (t, Failed e)
  end.

Notation "'let*' x ':=' m 'in' k" := (and_then m (fun x => k))
  (at level 10, x name, m at level 100, k at level 200).
Notation "m >> k" := (and_then m (fun _ => k))
  (at level 62, right associativity).

(** [print(line)] in the script. *)
Definition say (line : string) : Script unit := ([Printed line], Done tt).

(** A call of the client from the script. *)
Definition lift {A} (m : IO A) : Script A :=
  match m with
  | (t, Returns a) => (t, Done a)
  | (t, Raises e) => (t, Failed (ClientError e))
  end.

(** [try: m  except Exception as e: handler e]. *)
Definition try_ {A} (m : Script A) (handler : error -> Script A) : Script A :=
  match m with
  | (t, Failed e) => let (t', r) := handler e in ((t ++ t')%list, r)
  | _ => m
  end.

(** [for x in l: body x]. *)
Fixpoint for_each {A} (l : list A) (body : A -> Script unit) : Script unit :=
  match l with
  | [] => done tt
  | x :: rest => body x >> for_each rest body
  end.

(** The characters of a string, each as a string of its own. *)
Definition chars (s : string) : list json :=
  map (fun a => JStr (String a EmptyString)) (list_ascii_of_string s).

(** [v[key]] with a string as key. *)
Definition getitem (v : json) (key : string) : Script json :=
  match v with
  | JObj d =>
      match Dict.get d key with
      | Some x => done x
      | None => fail (KeyError key)
      end
  | _ => fail (Unsupported (Subscript key) v)
  end.

(** [v.get(key, dflt)]. *)
Definition get_or (v : json) (key : string) (dflt : json) : Script json :=
  match v with
  | JObj d => done (or_default (Dict.get d key) dflt)
  | _ => fail (Unsupported (Attribute "get") v)
  end.

(** [len(v)]. *)
Definition len (v : json) : Script Z :=
  match v with
  | JList l => done (Z.of_nat (length l))
  | JStr s => done (Z.of_nat (String.length s))
  | JObj d => done (Z.of_nat (length d))
  | _ => fail (Unsupported Len v)
  end.

(** The items of [v[:2]]. *)
Definition first_two (v : json) : Script (list json) :=
  match v with
  | JList l => done (firstn 2 l)
  | JStr s => done (firstn 2 (chars s))
  | _ => fail (Unsupported Slice v)
  end.

(** The items [for x in v] goes through: the elements of a list, the
    characters of a string, the keys of a dictionary. *)
Definition items (v : json) : Script (list json) :=
  match v with
  | JList l => done l
  | JStr s => done (chars s)
  | JObj d => done (map (fun kv => JStr (fst kv)) d)
  | _ => fail (Unsupported Iterate v)
  end.

(** ["=" * 80]. *)
Definition rule : string :=
  string_of_list_ascii (repeat "="%char 80).

Definition print_section (title : string) : Script unit :=
  say (PyStr.newline ++ rule) >>
  say ("  " ++ title) >>
  say rule.

Definition print_json (data : json) : Script unit :=
  say (JsonDumps.dumps data).

Definition annotation_content : string :=
  "This area contains what appears to be a characteristic plant drawing with "
  ++ "distinct leaf structures typical of the herbal section. The curved stems "
  ++ "and detailed root system are particularly noteworthy.".

Definition api_key_required : string :=
  "Error: API key is required. Provide it with --api-key or set the VOYNICH_API_KEY environment variable.".

Section Workflow.

Variable transport : Request -> reply.

(** The text of the error the interpreter raises for an operation on a
    value that does not support it. *)
Variable wording : failed_op -> json -> string.

(** The text the interpreter writes for a list or a dictionary. *)
Variable container_repr : json -> string.

(** [str(e)] for an error the script catches. *)
Definition str (e : error) : string :=
  match e with
  | ClientError e => Requests.str e
  | KeyError key => "'" ++ key ++ "'"
  | Unsupported op v => wording op v
  end.

(** A value inside an f-string. *)
Definition fmt (v : json) : string :=
  match v with
  | JNull => "None"
  | JBool true => "True"
  | JBool false => "False"
  | JInt n => PyStr.of_Z n
  | JStr s => s
  | _ => container_repr v
  end.

(** The methods of the client the script calls with a value of the
    server in the place of an id. *)
Definition list_symbols (self : VoynichApiClient) (page_id : json) : IO json :=
  _make_request transport self "GET" ("symbols/page/" ++ fmt page_id) None None.

Definition create_annotation (self : VoynichApiClient) (page_id : json)
    (x y width height : Z) (content : string) (is_public : bool) : IO json :=
  let data := [("pageId", page_id); ("x", JInt x); ("y", JInt y);
               ("width", JInt width); ("height", JInt height);
               ("content", JStr content); ("isPublic", JBool is_public)] in
  _make_request transport self "POST" "annotations" None (Some data).

Definition vote_on_annotation (self : VoynichApiClient) (annotation_id : json)
    (vote_type : string) : IO json :=
  if negb (PyStr.mem vote_type ["upvote"; "downvote"])
  then raise (ValueError "Vote type must be 'upvote' or 'downvote'")
  else
    let data := [("voteType", JStr vote_type)] in
    _make_request transport self "POST"
      ("annotations/" ++ fmt annotation_id ++ "/vote") None (Some data).

(** Step 1 of [run_example]; gives [page_id] and [folio_number]. *)
Definition retrieve_page (client : VoynichApiClient) : Script (json * json) :=
  print_section "STEP 1: Retrieving a manuscript page" >>
  say "Fetching manuscript page with ID 1..." >>
  let* page_result := lift (get_page transport client 1) in
  say "Retrieved page data:" >>
  print_json page_result >>
  let* data := getitem page_result "data" in
  let* page_id := getitem data "id" in
  let* data := getitem page_result "data" in
  let* folio_number := getitem data "folioNumber" in
  say (PyStr.newline ++ "Working with page ID " ++ fmt page_id
       ++ " (Folio " ++ fmt folio_number ++ ")") >>
  done (page_id, folio_number).

(** Step 2. *)
Definition retrieve_symbols (client : VoynichApiClient)
    (page_id folio_number : json) : Script unit :=
  print_section "STEP 2: Retrieving symbols for the page" >>
  say ("Fetching symbols for page ID " ++ fmt page_id ++ "...") >>
  let* symbols_result := lift (list_symbols client page_id) in
  let* symbols := get_or symbols_result "data" (JList []) in
  let* symbol_count := len symbols in
  say ("Found " ++ PyStr.of_Z symbol_count ++ " symbols on page "
       ++ fmt folio_number) >>
  if (0 <? symbol_count)%Z
  then
    say (PyStr.newline ++ "First few symbols:") >>
    let* shown := first_two symbols in
    for_each shown (fun symbol => print_json symbol >> say EmptyString)
  else done tt.

(** Step 3, with its own [try]/[except]. *)
Definition annotate (client : VoynichApiClient) (page_id : json)
    : Script unit :=
  print_section "STEP 3: Creating an annotation" >>
  let annotation_x := 200%Z in
  let annotation_y := 300%Z in
  let annotation_width := 100%Z in
  let annotation_height := 80%Z in
  say ("Creating annotation at coordinates (" ++ PyStr.of_Z annotation_x
       ++ ", " ++ PyStr.of_Z annotation_y ++ ") with dimensions "
       ++ PyStr.of_Z annotation_width ++ "x" ++ PyStr.of_Z annotation_height
       ++ "...") >>
  try_
    (let* annotation_result :=
       lift (create_annotation client page_id annotation_x annotation_y
               annotation_width annotation_height annotation_content true) in
     say "Annotation created successfully:" >>
     print_json annotation_result >>
     let* data := getitem annotation_result "data" in
     let* annotation_id := getitem data "id" in
     say (PyStr.newline ++ "Created annotation with ID: " ++ fmt annotation_id) >>
     say (PyStr.newline ++ "Upvoting the annotation...") >>
     let* vote_result :=
       lift (vote_on_annotation client annotation_id "upvote") in
     say "Upvote successful:" >>
     print_json vote_result)
    (fun e => say ("Error creating or upvoting annotation: " ++ str e)).

(** Step 4. *)
Definition retrieve_activity (client : VoynichApiClient) : Script unit :=
  print_section "STEP 4: Retrieving activity feed" >>
  say "Fetching the latest platform activity..." >>
  let* activity_result :=
    lift (get_activity_feed transport client (Some 5%Z) None) in
  let* activities := get_or activity_result "data" (JList []) in
  let* count := len activities in
  say ("Retrieved " ++ PyStr.of_Z count ++ " recent activities:") >>
  let* each := items activities in
  for_each each (fun activity => print_json activity >> say EmptyString).

(** Step 5. *)
Definition retrieve_leaderboard (client : VoynichApiClient) : Script unit :=
  print_section "STEP 5: Retrieving leaderboard data" >>
  say "Fetching weekly leaderboard..." >>
  let* leaderboard_result :=
    lift (get_leaderboard transport client (Some "weekly")) in
  say "Weekly leaderboard data:" >>
  print_json leaderboard_result.

(** Step 6. *)
Definition retrieve_usage (client : VoynichApiClient) : Script unit :=
  print_section "STEP 6: Checking API usage statistics" >>
  say "Fetching API usage statistics..." >>
  let* usage_result := lift (get_usage transport client) in
  say "API usage statistics:" >>
  print_json usage_result.

(** The [try] block of [run_example]. *)
Definition workflow (client : VoynichApiClient) : Script unit :=
  let* page := retrieve_page client in
  let (page_id, folio_number) := page in
  retrieve_symbols client page_id folio_number >>
  annotate client page_id >>
  retrieve_activity client >>
  retrieve_leaderboard client >>
  retrieve_usage client >>
  print_section "EXAMPLE WORKFLOW COMPLETED SUCCESSFULLY".

(** [run_example]; the value is what it returns. *)
Definition run_example (api_key base_url : string) : Script Z :=
  let client := __init__ base_url api_key in
  try_
    (workflow client >> done 0%Z)
    (fun e =>
       say (PyStr.newline ++ "ERROR: " ++ str e) >>
       say (PyStr.newline ++ "Example workflow did not complete successfully.") >>
       done 1%Z).

(** [main] of the script, from the parsed arguments on. *)
Definition main (args_api_key args_base_url : string) : Script Z :=
  if String.eqb args_api_key EmptyString
  then say api_key_required >> done 1%Z
  else run_example args_api_key args_base_url.

(** [sys.exit(main())]: the trace of the run and the exit status. *)
Definition __main__ (args_api_key args_base_url : string) : list event * Z :=
  match main args_api_key args_base_url with
  | (t, Done status) => (t, status)
  | (t, Failed _) => (t, 1%Z)
  end.

End Workflow.

End ExampleUsage.

(** ** The arguments of the command line

    [argparse] is a library; the model keeps what [main] asks of it for
    the two global options and for the [--public] flag. *)

(** [os.environ], and [os.environ.get(name, fallback)]. *)
Definition environ : Type := string -> option string.

Definition environ_get (env : environ) (name fallback : string) : string :=
  or_default (env name) fallback.

(** The value of an option declared with [default=dflt]: the one given
    on the command line, if any. *)
Definition option_value (given : option string) (dflt : string) : string :=
  or_default given dflt.

(** The value of a flag declared with [action='store_true'] and
    [default=dflt]. *)
Definition store_true (dflt present : bool) : bool :=
  if present then true else dflt.

(** [args.base_url] and [args.api_key] as [main] declares them. *)
Definition parse_base_url (env : environ) (given : option string) : string :=
  option_value given (environ_get env "VOYNICH_API_URL" "http://localhost:3000").

Definition parse_api_key (env : environ) (given : option string) : string :=
  option_value given (environ_get env "VOYNICH_API_KEY" EmptyString).

(** [args.public] of [create-annotation], declared with
    [action='store_true', default=True]; [present] tells whether
    [--public] is on the command line. *)
Definition parse_public (present : bool) : bool := store_true true present.

(** ** Notions used to state properties *)

(** The request a call of the helper sends, if it sends one. *)
Definition request_of (self : VoynichApiClient) (method endpoint : string)
    (params data : option dict) : option Request :=
  if String.eqb (PyStr.upper method) "GET"
  then Some (mkRequest GET (request_url self endpoint) (client_headers self)
               params None)
  else if String.eqb (PyStr.upper method) "POST"
  then Some (mkRequest POST (request_url self endpoint) (client_headers self)
               None data)
  else None.

(** The lines the helper prints about the response [r] of a failed
    request: the [try]/[except] inside the handler of [_make_request]. *)
Definition error_details (r : Response) : list string :=
  match body r with
  | Decodes doc => ["Error details: " ++ JsonDumps.dumps doc]
  | DecodeFails _ =>
      ["Status code: " ++ PyStr.of_Z (status_code r);
       "Response body: " ++ text r]
  end.

(** [s] ends with the character [c]. *)
Fixpoint ends_with (c : ascii) (s : string) : bool :=
  match s with
  | EmptyString => false
  | String a EmptyString => Ascii.eqb a c
  | String _ t => ends_with c t
  end.

(** ** Test doubles

    A client, and transports that answer every request the same way, as a
    mocked transport does in a test of the client. *)

Module Mock.

Definition client : VoynichApiClient :=
  __init__ "http://localhost:3000" "secret".

(** A transport that answers every request with [r]. *)
Definition always (r : Response) : Request -> reply := fun _ => Answer r.

(** A transport with no server behind it. *)
Definition offline : Request -> reply :=
  fun _ => Failure "Connection refused" None.

Definition error_doc : json := JObj [("error", JStr "not found")].

(** HTTP 404 with the body [{"error": "not found"}]. *)
Definition not_found : Response :=
  {| status_code := 404;
     reason := "Not Found";
     final_url := "http://localhost:3000/api/external/pages/999";
     text := JsonDumps.dumps error_doc;
     body := Decodes error_doc |}.

Definition created_doc : json :=
  JObj [("data", JObj [("id", JInt 42); ("pageId", JInt 1);
                       ("content", JStr "a plant")])].

(** HTTP 201 with a body whose [data.id] is 42. *)
Definition created : Response :=
  {| status_code := 201;
     reason := "Created";
     final_url := "http://localhost:3000/api/external/annotations";
     text := JsonDumps.dumps created_doc;
     body := Decodes created_doc |}.

End Mock.

(** A server for the example workflow: it knows page 1 and its symbols,
    answers every other GET with an empty document, and takes POSTs only
    when [writable]. *)

Module MockServer.

Definition ok (doc : json) (u : string) : reply :=
  Answer {| status_code := 200; reason := "OK"; final_url := u;
            text := JsonDumps.dumps doc; body := Decodes doc |}.

Definition broken (u : string) : reply :=
  Answer {| status_code := 500; reason := "Internal Server Error";
            final_url := u; text := "oops";
            body := DecodeFails "Expecting value: line 1 column 1 (char 0)" |}.

Definition page_doc : json :=
  JObj [("data", JObj [("id", JInt 1); ("folioNumber", JStr "1r")])].

Definition symbols_doc : json :=
  JObj [("data", JList [JObj [("id", JInt 7)]; JObj [("id", JInt 8)];
                        JObj [("id", JInt 9)]])].

Definition server (writable : bool) (req : Request) : reply :=
  match method req with
  | POST =>
      if writable then ok Mock.created_doc (url req) else broken (url req)
  | GET =>
      if String.eqb (url req) "http://localhost:3000/api/external/pages/1"
      then ok page_doc (url req)
      else if String.eqb (url req)
                "http://localhost:3000/api/external/symbols/page/1"
      then ok symbols_doc (url req)
      else ok (JObj []) (url req)
  end.

(** Stand-ins for the two texts of the interpreter. *)
Definition wording (op : ExampleUsage.failed_op) (v : json) : string :=
  "unsupported operation".

Definition container_repr (v : json) : string := "<container>".

End MockServer.

(** * Properties *)

(** ** Strings *)

Lemma rstrip_snoc (c : ascii) (s : string) :
  PyStr.rstrip c (s ++ String c EmptyString) = PyStr.rstrip c s.
Proof.
  induction s as [| a t IH]; simpl.
  - now rewrite Ascii.eqb_refl.
  - now rewrite IH.
Qed.

Lemma upper_char_idempotent (a : ascii) :
  PyStr.upper_char (PyStr.upper_char a) = PyStr.upper_char a.
Proof.
  destruct a as [[] [] [] [] [] [] [] []]; reflexivity.
Qed.

Lemma upper_idempotent (s : string) : PyStr.upper (PyStr.upper s) = PyStr.upper s.
Proof.
  induction s as [| a t IH]; simpl; [reflexivity |].
  now rewrite upper_char_idempotent, IH.
Qed.

Lemma lstrip_no_leading (c : ascii) (s : string) :
  (forall t, s <> String c t) -> PyStr.lstrip c s = s.
Proof.
  destruct s as [| a t]; simpl; intros H; [reflexivity |].
  destruct (Ascii.eqb_spec a c) as [-> | _]; [now elim (H t) | reflexivity].
Qed.

(** ** The request helper *)

Section Helper.

Variable transport : Request -> reply.
Variable self : VoynichApiClient.

Lemma make_request_GET method endpoint params data :
  PyStr.upper method = "GET" ->
  _make_request transport self method endpoint params data
  = exchange transport (mkRequest GET (request_url self endpoint)
                (client_headers self) params None).
Proof.
  intros H. unfold _make_request, exchange, requests_get. now rewrite H.
Qed.

Lemma make_request_POST method endpoint params data :
  PyStr.upper method = "POST" ->
  _make_request transport self method endpoint params data
  = exchange transport (mkRequest POST (request_url self endpoint)
                (client_headers self) None data).
Proof.
  intros H. unfold _make_request, exchange, requests_post. now rewrite H.
Qed.

Lemma make_request_unsupported method endpoint params data :
  PyStr.upper method <> "GET" ->
  PyStr.upper method <> "POST" ->
  _make_request transport self method endpoint params data
  = ([], Raises (ValueError ("Unsupported HTTP method: " ++ method))).
Proof.
  intros Hg Hp. unfold _make_request.
  destruct (String.eqb_spec (PyStr.upper method) "GET"); [contradiction |].
  destruct (String.eqb_spec (PyStr.upper method) "POST"); [contradiction |].
  reflexivity.
Qed.

(** Every exchange starts with exactly one network call. *)
Lemma exchange_sent req : sent (trace (exchange transport req)) = [req].
Proof.
  unfold exchange, send, report_and_reraise, raise_for_status, response_json.
  destruct (transport req) as [r | msg [r |]]; simpl.
  - destruct (is_error_status (status_code r)); simpl;
      destruct (body r); reflexivity.
  - destruct (body r); reflexivity.
  - reflexivity.
Qed.

Lemma exchange_success req r doc :
  transport req = Answer r ->
  is_error_status (status_code r) = false ->
  body r = Decodes doc ->
  exchange transport req = ([Sent req], Returns doc).
Proof.
  intros Ht Hs Hb.
  unfold exchange, send, raise_for_status, response_json, bind.
  now rewrite Ht, Hs, Hb.
Qed.

Lemma exchange_http_error req r :
  transport req = Answer r ->
  is_error_status (status_code r) = true ->
  exchange transport req
  = (Sent req
     :: Printed ("API request error: " ++ http_error_msg r)
     :: match body r with
        | Decodes doc => [Printed ("Error details: " ++ JsonDumps.dumps doc)]
        | DecodeFails _ =>
            [Printed ("Status code: " ++ PyStr.of_Z (status_code r));
             Printed ("Response body: " ++ text r)]
        end,
     Raises (HTTPError (http_error_msg r) r)).
Proof.
  intros Ht Hs.
  unfold exchange, send, report_and_reraise, raise_for_status, response_json,
    bind.
  rewrite Ht, Hs. simpl.
  destruct (body r); reflexivity.
Qed.

End Helper.

Lemma exchange_not_ValueError transport req msg :
  result (exchange transport req) <> Raises (ValueError msg).
Proof.
  unfold exchange, send, report_and_reraise, raise_for_status, response_json,
    bind.
  destruct (transport req) as [r | m [r |]]; simpl.
  - destruct (is_error_status (status_code r)); simpl;
      destruct (body r); simpl; discriminate.
  - destruct (body r); simpl; discriminate.
  - discriminate.
Qed.

(** ** Error reporting *)

(** C1, as the code has it: when a request is answered with a 4xx or 5xx
    status, the request helper prints the error, then the parsed JSON
    error body when the body decodes (the status code and the raw text
    otherwise), and re-raises the HTTP error of the transport unchanged.
    The message of that error is made of the status code, the reason
    phrase and the URL; the body is not part of it. *)
Theorem make_request_error_status :
  forall transport self method endpoint params data req r,
    sent (trace (_make_request transport self method endpoint params data))
      = [req] ->
    transport req = Answer r ->
    is_error_status (status_code r) = true ->
    let call := _make_request transport self method endpoint params data in
    result call = Raises (HTTPError (http_error_msg r) r)
    /\ printed (trace call)
       = ("API request error: " ++ http_error_msg r)
         :: match body r with
            | Decodes doc => ["Error details: " ++ JsonDumps.dumps doc]
            | DecodeFails _ =>
                ["Status code: " ++ PyStr.of_Z (status_code r);
                 "Response body: " ++ text r]
            end
    /\ str (HTTPError (http_error_msg r) r)
       = PyStr.of_Z (status_code r)
         ++ (if (status_code r <? 500)%Z
             then " Client Error: " else " Server Error: ")
         ++ reason r ++ " for url: " ++ final_url r.
Proof.
  intros transport self method endpoint params data req r Hsent Ht Hs call.
  assert (Hcall : call = exchange transport req).
  { subst call.
    destruct (String.eqb_spec (PyStr.upper method) "GET") as [Hg | Hg].
    - rewrite (make_request_GET transport self _ _ _ _ Hg) in *.
      rewrite exchange_sent in Hsent. now inversion Hsent.
    - destruct (String.eqb_spec (PyStr.upper method) "POST") as [Hp | Hp].
      + rewrite (make_request_POST transport self _ _ _ _ Hp) in *.
        rewrite exchange_sent in Hsent. now inversion Hsent.
      + rewrite (make_request_unsupported transport self _ _ _ _ Hg Hp) in Hsent.
        discriminate Hsent. }
  rewrite Hcall, (exchange_http_error transport req r Ht Hs).
  repeat split. simpl. destruct (body r); reflexivity.
Qed.

Lemma make_request_error_status_witness :
  let call := get_page (Mock.always Mock.not_found) Mock.client 999 in
  result call
  = Raises (HTTPError
              "404 Client Error: Not Found for url: http://localhost:3000/api/external/pages/999"
              Mock.not_found)
  /\ printed (trace call)
     = ["API request error: 404 Client Error: Not Found for url: http://localhost:3000/api/external/pages/999";
        "Error details: " ++ JsonDumps.dumps Mock.error_doc].
Proof.
  pose proof (make_request_error_status (Mock.always Mock.not_found)
                Mock.client "GET" "pages/999" None None
                (mkRequest GET "http://localhost:3000/api/external/pages/999"
                   (client_headers Mock.client) None None)
                Mock.not_found eq_refl eq_refl eq_refl) as [Hr [Hp _]].
  split; [exact Hr | exact Hp].
Defined.

(** The message of the HTTP error does not depend on the body of the
    response. *)
Lemma http_error_msg_ignores_body (r : Response) (t : string) (b : decoded) :
  http_error_msg
    {| status_code := status_code r; reason := reason r;
       final_url := final_url r; text := t; body := b |}
  = http_error_msg r.
Proof. reflexivity. Qed.

(** The error raised by [get_page(999)] on a 404 answer with the body
    [{"error": "not found"}] has no "not found" in its message. *)
Lemma get_page_404_message_lacks_body :
  ~ exists e,
      result (get_page (Mock.always Mock.not_found) Mock.client 999) = Raises e
      /\ PyStr.contains "not found" (str e) = true.
Proof.
  intros [e [Hr Hc]]. vm_compute in Hr. inversion Hr; subst e.
  vm_compute in Hc. discriminate Hc.
Qed.

(** The text "not found" is in what the helper prints on that answer. *)
Example get_page_404_details_printed :
  existsb (PyStr.contains "not found")
    (printed (trace (get_page (Mock.always Mock.not_found) Mock.client 999)))
  = true.
Proof. reflexivity. Qed.

(** ** The command line driver without an API key *)

(** C2, what the code does: with a subcommand and an empty API key,
    [main] prints the explanatory message and makes no network call, but
    it leaves through a bare [return], so the process exits with
    status 0. *)
Theorem main_missing_api_key_exit_status :
  forall transport base c,
    __main__ transport (mkNamespace base EmptyString (Some c))
    = ([Printed api_key_required], 0%Z).
Proof. reflexivity. Qed.

(** Any other failure of a command leaves [main] with status 1. *)
Example main_failed_command_exit_status :
  snd (__main__ Mock.offline (mkNamespace "http://localhost:3000" "secret" (Some Usage)))
  = 1%Z.
Proof. reflexivity. Qed.

(** ** Validation of arguments *)

(** C3: a vote type other than "upvote" and "downvote" is refused with a
    [ValueError] and nothing is sent; with one of the two, exactly one
    POST goes to [annotations/{id}/vote] with the vote type as body, and
    the call does not end in a [ValueError]. *)
Theorem vote_on_annotation_validation :
  forall transport self annotation_id vote_type,
    let call := vote_on_annotation transport self annotation_id vote_type in
    (vote_type <> "upvote" /\ vote_type <> "downvote" ->
     call = ([], Raises (ValueError "Vote type must be 'upvote' or 'downvote'")))
    /\ (vote_type = "upvote" \/ vote_type = "downvote" ->
        sent (trace call)
        = [mkRequest POST
             (base_url self ++ "/api/external/annotations/"
              ++ PyStr.of_Z annotation_id ++ "/vote")
             (client_headers self) None (Some [("voteType", JStr vote_type)])]
        /\ forall msg, result call <> Raises (ValueError msg)).
Proof.
  intros transport self annotation_id vote_type call. subst call.
  unfold vote_on_annotation. split.
  - intros [Hu Hd]. simpl.
    destruct (String.eqb_spec vote_type "upvote"); [contradiction |].
    destruct (String.eqb_spec vote_type "downvote"); [contradiction |].
    reflexivity.
  - intros Hv.
    assert (Hmem : PyStr.mem vote_type ["upvote"; "downvote"] = true)
      by (destruct Hv as [-> | ->]; reflexivity).
    rewrite Hmem. simpl negb. cbv iota.
    rewrite make_request_POST by reflexivity.
    split; [apply exchange_sent | intros msg; apply exchange_not_ValueError].
Qed.

Lemma vote_on_annotation_validation_witness :
  vote_on_annotation Mock.offline Mock.client 7 "sideways"
  = ([], Raises (ValueError "Vote type must be 'upvote' or 'downvote'"))
  /\ sent (trace (vote_on_annotation Mock.offline Mock.client 7 "downvote"))
     = [mkRequest POST "http://localhost:3000/api/external/annotations/7/vote"
          (client_headers Mock.client) None
          (Some [("voteType", JStr "downvote")])].
Proof.
  split.
  - apply (vote_on_annotation_validation Mock.offline Mock.client 7 "sideways").
    split; discriminate.
  - apply (vote_on_annotation_validation Mock.offline Mock.client 7 "downvote").
    right; reflexivity.
Defined.

(** C4: a timeframe outside daily, weekly, monthly and alltime is refused
    with a [ValueError] and nothing is sent; a timeframe among the four
    gives exactly one GET to the leaderboard endpoint whose only query
    parameter is that timeframe. *)
Theorem get_leaderboard_validation :
  forall transport self timeframe,
    let call := get_leaderboard transport self (Some timeframe) in
    (~ In timeframe ["daily"; "weekly"; "monthly"; "alltime"] ->
     call = ([], Raises (ValueError
               "Timeframe must be one of: daily, weekly, monthly, alltime")))
    /\ (In timeframe ["daily"; "weekly"; "monthly"; "alltime"] ->
        sent (trace call)
        = [mkRequest GET (base_url self ++ "/api/external/leaderboard")
             (client_headers self) (Some [("timeframe", JStr timeframe)]) None]).
Proof.
  intros transport self timeframe call. subst call.
  unfold get_leaderboard, or_default. split.
  - intros Hnot.
    assert (Hmem : PyStr.mem timeframe valid_timeframes = false).
    { unfold PyStr.mem, valid_timeframes. simpl.
      repeat match goal with
             | |- context [String.eqb timeframe ?s] =>
                 destruct (String.eqb_spec timeframe s) as [-> | _];
                 [exfalso; apply Hnot; simpl; tauto |]
             end.
      reflexivity. }
    rewrite Hmem. reflexivity.
  - intros Hin.
    assert (Hmem : PyStr.mem timeframe valid_timeframes = true).
    { simpl in Hin. destruct Hin as [<- | [<- | [<- | [<- | []]]]]; reflexivity. }
    rewrite Hmem. simpl negb. cbv iota.
    rewrite make_request_GET by reflexivity. apply exchange_sent.
Qed.

Lemma get_leaderboard_validation_witness :
  get_leaderboard Mock.offline Mock.client (Some "yearly")
  = ([], Raises (ValueError
            "Timeframe must be one of: daily, weekly, monthly, alltime"))
  /\ sent (trace (get_leaderboard Mock.offline Mock.client (Some "monthly")))
     = [mkRequest GET "http://localhost:3000/api/external/leaderboard"
          (client_headers Mock.client) (Some [("timeframe", JStr "monthly")])
          None].
Proof.
  split.
  - apply (get_leaderboard_validation Mock.offline Mock.client "yearly").
    simpl. intros [H | [H | [H | [H | []]]]]; discriminate H.
  - apply (get_leaderboard_validation Mock.offline Mock.client "monthly").
    simpl. right; right; left; reflexivity.
Defined.

(** Left out, the timeframe is "weekly". *)
Example get_leaderboard_default :
  get_leaderboard Mock.offline Mock.client None
  = get_leaderboard Mock.offline Mock.client (Some "weekly").
Proof. reflexivity. Qed.

(** ** Request URLs *)

(** C5, as the code has it: a base URL and the same base URL followed by
    a slash give the same client, hence the same request for every
    operation; the request URL is the base URL without its trailing
    slashes, then [/api/external/], then the endpoint without its leading
    slashes. *)
Theorem base_url_normalization :
  forall b key endpoint,
    __init__ (b ++ "/") key = __init__ b key
    /\ request_url (__init__ (b ++ "/") key) endpoint
       = request_url (__init__ b key) endpoint
    /\ request_url (__init__ b key) endpoint
       = PyStr.rstrip PyStr.slash b ++ "/api/external/"
         ++ PyStr.lstrip PyStr.slash endpoint.
Proof.
  intros b key endpoint.
  assert (H : __init__ (b ++ "/") key = __init__ b key).
  { unfold __init__. f_equal. apply (rstrip_snoc PyStr.slash b). }
  rewrite H. repeat split.
Qed.

(** With an endpoint that starts with a slash the request URL is not the
    base URL, [/api/external/] and the endpoint put together. *)
Lemma request_url_leading_slash :
  request_url (__init__ "http://localhost:3000" "secret") "/pages"
  <> "http://localhost:3000" ++ "/api/external/" ++ "/pages".
Proof. vm_compute. discriminate. Qed.

(** The endpoints of the ten operations start with a letter, so their
    URL is the base, [/api/external/] and the endpoint as it is. *)
Lemma request_url_relative (self : VoynichApiClient) (endpoint : string) :
  (forall t, endpoint <> String PyStr.slash t) ->
  request_url self endpoint = base_url self ++ "/api/external/" ++ endpoint.
Proof.
  intros H. unfold request_url. now rewrite lstrip_no_leading.
Qed.

(** ** Successful responses *)

(** C6: when the answer to the POST of [create_annotation] has a status
    that is not an error (every 2xx status, 201 among them) and a body
    that decodes, [create_annotation] returns the decoded body as it is,
    after that one network call. *)
Theorem create_annotation_returns_body :
  forall transport self page_id x y width height content is_public r doc,
    let req :=
      mkRequest POST (base_url self ++ "/api/external/annotations")
        (client_headers self) None
        (Some [("pageId", JInt page_id); ("x", JInt x); ("y", JInt y);
               ("width", JInt width); ("height", JInt height);
               ("content", JStr content);
               ("isPublic", JBool (or_default is_public true))]) in
    transport req = Answer r ->
    is_error_status (status_code r) = false ->
    body r = Decodes doc ->
    create_annotation transport self page_id x y width height content is_public
    = ([Sent req], Returns doc).
Proof.
  intros transport self page_id x y width height content is_public r doc req
    Ht Hs Hb.
  unfold create_annotation. rewrite make_request_POST by reflexivity.
  exact (exchange_success transport req r doc Ht Hs Hb).
Qed.

Lemma create_annotation_returns_body_witness :
  exists req,
    create_annotation (Mock.always Mock.created) Mock.client 1 200 300 100 80
      "a plant" None
    = ([Sent req], Returns Mock.created_doc)
    /\ match subscript Mock.created_doc "data" with
       | Some data => subscript data "id"
       | None => None
       end = Some (JInt 42).
Proof.
  eexists. split.
  - apply (create_annotation_returns_body (Mock.always Mock.created)
             Mock.client 1 200 300 100 80 "a plant" None Mock.created
             Mock.created_doc); reflexivity.
  - reflexivity.
Defined.

(** Every status from 200 to 299 is a status on which the helper returns. *)
Lemma success_is_not_error_status (c : Z) :
  (200 <= c < 300)%Z -> is_error_status c = false.
Proof.
  intros H. unfold is_error_status.
  destruct (Z.leb_spec 400 c); [lia | reflexivity].
Qed.

(** ** Query parameters and bodies *)

(** C7: [list_pages] makes one GET to [pages] whose query parameters are
    offset and limit with the values given, and no other; left out, the
    offset is 0 and the limit 20. *)
Theorem list_pages_params :
  forall transport self,
    (forall offset limit,
        sent (trace (list_pages transport self (Some offset) (Some limit)))
        = [mkRequest GET (base_url self ++ "/api/external/pages")
             (client_headers self)
             (Some [("offset", JInt offset); ("limit", JInt limit)]) None])
    /\ map params
         (sent (trace (list_pages transport self (Some 10%Z) (Some 5%Z))))
       = [Some [("offset", JInt 10); ("limit", JInt 5)]]
    /\ list_pages transport self None None
       = list_pages transport self (Some 0%Z) (Some 20%Z).
Proof.
  intros transport self.
  assert (H : forall offset limit,
             sent (trace (list_pages transport self (Some offset) (Some limit)))
             = [mkRequest GET (base_url self ++ "/api/external/pages")
                  (client_headers self)
                  (Some [("offset", JInt offset); ("limit", JInt limit)]) None]).
  { intros offset limit. unfold list_pages, or_default.
    rewrite make_request_GET by reflexivity. apply exchange_sent. }
  split; [exact H |]. split; [now rewrite H | reflexivity].
Qed.

(** C8: a method whose upper-case form is neither GET nor POST makes the
    request helper raise a [ValueError]; the trace is empty, so nothing
    was sent. *)
Theorem make_request_unsupported_method :
  forall transport self method endpoint params data,
    PyStr.upper method <> "GET" ->
    PyStr.upper method <> "POST" ->
    let call := _make_request transport self method endpoint params data in
    call = ([], Raises (ValueError ("Unsupported HTTP method: " ++ method)))
    /\ sent (trace call) = [].
Proof.
  intros transport self method endpoint params data Hg Hp call. subst call.
  rewrite (make_request_unsupported transport self _ _ _ _ Hg Hp).
  split; reflexivity.
Qed.

Lemma make_request_unsupported_method_witness :
  _make_request (Mock.always Mock.created) Mock.client "delete" "pages/1"
    None None
  = ([], Raises (ValueError "Unsupported HTTP method: delete")).
Proof.
  apply (make_request_unsupported_method (Mock.always Mock.created)
           Mock.client "delete" "pages/1" None None); discriminate.
Defined.

(** C9: [create_symbol] makes one POST to [symbols] whose body has the
    key "category" exactly when the category is truthy and the key
    "metadata" exactly when the metadata is truthy, each with the value
    given; an empty string as category, or an empty mapping as metadata,
    gives the same call as [None]. *)
Theorem create_symbol_optional_fields :
  forall transport self page_id x y width height category metadata,
    let data :=
      create_symbol_data page_id x y width height category metadata in
    sent (trace (create_symbol transport self page_id x y width height
                   category metadata))
    = [mkRequest POST (base_url self ++ "/api/external/symbols")
         (client_headers self) None (Some data)]
    /\ Dict.has_key data "category" = truthy category
    /\ Dict.has_key data "metadata" = truthy metadata
    /\ Dict.get data "category"
       = (if truthy category then Some category else None)
    /\ Dict.get data "metadata"
       = (if truthy metadata then Some metadata else None)
    /\ create_symbol transport self page_id x y width height
         (JStr EmptyString) metadata
       = create_symbol transport self page_id x y width height JNull metadata
    /\ create_symbol transport self page_id x y width height category (JObj [])
       = create_symbol transport self page_id x y width height category JNull.
Proof.
  intros transport self page_id x y width height category metadata data.
  assert (Hc : Dict.get data "category"
               = if truthy category then Some category else None).
  { subst data. unfold create_symbol_data.
    destruct (truthy category), (truthy metadata); reflexivity. }
  assert (Hm : Dict.get data "metadata"
               = if truthy metadata then Some metadata else None).
  { subst data. unfold create_symbol_data.
    destruct (truthy category), (truthy metadata); reflexivity. }
  split.
  { unfold create_symbol. rewrite make_request_POST by reflexivity.
    apply exchange_sent. }
  unfold Dict.has_key. rewrite Hc, Hm.
  repeat split; try reflexivity.
  - now destruct (truthy category).
  - now destruct (truthy metadata).
Qed.

(** ** Dispatch on the method *)

(** C10, as the code has it: when the upper-case form of the method is
    GET or POST, the request helper does with the method what it does
    with its upper-case form; for any other method it raises, with
    nothing sent, a [ValueError] whose message quotes the method as it
    was passed, and so does it for the upper-case form. *)
Theorem make_request_method_case :
  forall transport self method endpoint params data,
    (PyStr.upper method = "GET" \/ PyStr.upper method = "POST" ->
     _make_request transport self method endpoint params data
     = _make_request transport self (PyStr.upper method) endpoint params data)
    /\ (PyStr.upper method <> "GET" /\ PyStr.upper method <> "POST" ->
        _make_request transport self method endpoint params data
        = ([], Raises (ValueError ("Unsupported HTTP method: " ++ method)))
        /\ _make_request transport self (PyStr.upper method) endpoint params
             data
           = ([], Raises (ValueError ("Unsupported HTTP method: "
                                      ++ PyStr.upper method)))).
Proof.
  intros transport self method endpoint params data. split.
  - intros [H | H].
    + rewrite (make_request_GET transport self method) by exact H.
      rewrite (make_request_GET transport self (PyStr.upper method));
        [reflexivity | now rewrite upper_idempotent].
    + rewrite (make_request_POST transport self method) by exact H.
      rewrite (make_request_POST transport self (PyStr.upper method));
        [reflexivity | now rewrite upper_idempotent].
  - intros [Hg Hp]. split.
    + now apply make_request_unsupported.
    + apply make_request_unsupported; now rewrite upper_idempotent.
Qed.

Lemma make_request_method_case_witness :
  _make_request (Mock.always Mock.created) Mock.client "Get" "usage" None None
  = _make_request (Mock.always Mock.created) Mock.client "GET" "usage" None None
  /\ _make_request (Mock.always Mock.created) Mock.client "patch" "usage"
       None None
     = ([], Raises (ValueError "Unsupported HTTP method: patch")).
Proof.
  split.
  - apply (make_request_method_case (Mock.always Mock.created) Mock.client
             "Get" "usage" None None).
    left; reflexivity.
  - apply (make_request_method_case (Mock.always Mock.created) Mock.client
             "patch" "usage" None None).
    split; discriminate.
Defined.

(** With the method "put" the helper does not do what it does with "PUT":
    the two errors carry different messages. *)
Lemma make_request_put_differs :
  _make_request Mock.offline Mock.client "put" "usage" None None
  <> _make_request Mock.offline Mock.client (PyStr.upper "put") "usage"
       None None.
Proof. vm_compute. discriminate. Qed.

(** * Further properties of the client *)

(** ** What one call of the helper does, case by case *)

Lemma exchange_cases transport req :
  exchange transport req
  = match transport req with
    | Answer r =>
        if is_error_status (status_code r)
        then (Sent req
              :: Printed ("API request error: " ++ http_error_msg r)
              :: match body r with
                 | Decodes doc =>
                     [Printed ("Error details: " ++ JsonDumps.dumps doc)]
                 | DecodeFails _ =>
                     [Printed ("Status code: " ++ PyStr.of_Z (status_code r));
                      Printed ("Response body: " ++ text r)]
                 end,
              Raises (HTTPError (http_error_msg r) r))
        else match body r with
             | Decodes doc => ([Sent req], Returns doc)
             | DecodeFails msg =>
                 ([Sent req; Printed ("API request error: " ++ msg)],
                  Raises (JSONDecodeError msg))
             end
    | Failure msg None =>
        ([Sent req; Printed ("API request error: " ++ msg)],
         Raises (TransportError msg None))
    | Failure msg (Some r) =>
        (Sent req
         :: Printed ("API request error: " ++ msg)
         :: match body r with
            | Decodes doc =>
                [Printed ("Error details: " ++ JsonDumps.dumps doc)]
            | DecodeFails _ =>
                [Printed ("Status code: " ++ PyStr.of_Z (status_code r));
                 Printed ("Response body: " ++ text r)]
            end,
         Raises (TransportError msg (Some r)))
    end.
Proof.
  unfold exchange, send, report_and_reraise, raise_for_status, response_json,
    bind.
  destruct (transport req) as [r | msg [r |]]; simpl.
  - destruct (is_error_status (status_code r)); simpl;
      destruct (body r); reflexivity.
  - destruct (body r); reflexivity.
  - reflexivity.
Qed.

Lemma make_request_cases transport self method endpoint params data :
  _make_request transport self method endpoint params data
  = match request_of self method endpoint params data with
    | Some req => exchange transport req
    | None => ([], Raises (ValueError ("Unsupported HTTP method: " ++ method)))
    end.
Proof.
  unfold request_of.
  destruct (String.eqb_spec (PyStr.upper method) "GET") as [Hg | Hg].
  - now apply make_request_GET.
  - destruct (String.eqb_spec (PyStr.upper method) "POST") as [Hp | Hp].
    + now apply make_request_POST.
    + now apply make_request_unsupported.
Qed.

Lemma make_request_sent transport self method endpoint params data :
  sent (trace (_make_request transport self method endpoint params data))
  = match request_of self method endpoint params data with
    | Some req => [req]
    | None => []
    end.
Proof.
  rewrite make_request_cases.
  destruct (request_of self method endpoint params data);
    [apply exchange_sent | reflexivity].
Qed.

(** ** Authentication and addressing *)

(** X1: every request the helper sends for a client built by [__init__]
    carries the two headers of the client, the bearer token made of the
    API key and the JSON content type, and goes to a URL under
    [/api/external/] of the normalized base URL. *)
Theorem make_request_carries_credentials :
  forall transport b key method endpoint params data req,
    In req (sent (trace (_make_request transport (__init__ b key) method
                           endpoint params data))) ->
    headers req = [("Authorization", "Bearer " ++ key);
                   ("Content-Type", "application/json")]
    /\ url req = PyStr.rstrip PyStr.slash b ++ "/api/external/"
                 ++ PyStr.lstrip PyStr.slash endpoint.
Proof.
  intros transport b key method endpoint params data req Hin.
  rewrite make_request_sent in Hin. unfold request_of in Hin.
  destruct (String.eqb (PyStr.upper method) "GET").
  - destruct Hin as [<- | []]. split; reflexivity.
  - destruct (String.eqb (PyStr.upper method) "POST").
    + destruct Hin as [<- | []]. split; reflexivity.
    + destruct Hin.
Qed.

Lemma make_request_carries_credentials_witness :
  headers (mkRequest POST "http://localhost:3000/api/external/symbols"
             (client_headers Mock.client) None None)
  = [("Authorization", "Bearer secret"); ("Content-Type", "application/json")]
  /\ url (mkRequest POST "http://localhost:3000/api/external/symbols"
            (client_headers Mock.client) None None)
     = "http://localhost:3000/api/external/symbols".
Proof.
  apply (make_request_carries_credentials Mock.offline
           "http://localhost:3000/" "secret" "post" "/symbols" None None).
  left; reflexivity.
Defined.

(** X2: one call of the helper makes one network call when the method
    is GET or POST in any letter case, and none otherwise; a failed
    request is not sent again. *)
Theorem make_request_single_call :
  forall transport self method endpoint params data,
    length (sent (trace (_make_request transport self method endpoint
                           params data)))
    = if String.eqb (PyStr.upper method) "GET"
         || String.eqb (PyStr.upper method) "POST"
      then 1%nat else 0%nat.
Proof.
  intros transport self method endpoint params data.
  rewrite make_request_sent. unfold request_of.
  destruct (String.eqb (PyStr.upper method) "GET"); [reflexivity |].
  destruct (String.eqb (PyStr.upper method) "POST"); reflexivity.
Qed.

(** X3: a GET sends the query parameters and no body, whatever is passed
    as data; a POST sends the data as JSON body and no query parameters,
    whatever is passed as params. *)
Theorem make_request_unused_argument :
  forall transport self method endpoint params params' data data',
    (PyStr.upper method = "GET" ->
     _make_request transport self method endpoint params data
     = _make_request transport self method endpoint params data'
     /\ map json_body (sent (trace (_make_request transport self method
                                      endpoint params data))) = [None])
    /\ (PyStr.upper method = "POST" ->
        _make_request transport self method endpoint params data
        = _make_request transport self method endpoint params' data
        /\ map Requests.params
             (sent (trace (_make_request transport self method endpoint
                             params data))) = [None]).
Proof.
  intros transport self method endpoint params params' data data'. split.
  - intros H. rewrite make_request_sent, !make_request_cases.
    unfold request_of. rewrite H. split; reflexivity.
  - intros H. rewrite make_request_sent, !make_request_cases.
    unfold request_of. rewrite H. split; reflexivity.
Qed.

Lemma make_request_unused_argument_witness :
  _make_request Mock.offline Mock.client "get" "usage" None
    (Some [("x", JInt 1)])
  = _make_request Mock.offline Mock.client "get" "usage" None None
  /\ _make_request Mock.offline Mock.client "POST" "symbols"
       (Some [("x", JInt 1)]) None
     = _make_request Mock.offline Mock.client "POST" "symbols" None None.
Proof.
  split.
  - exact (proj1 (proj1 (make_request_unused_argument Mock.offline Mock.client
                           "get" "usage" None None (Some [("x", JInt 1)]) None)
                    eq_refl)).
  - exact (proj1 (proj2 (make_request_unused_argument Mock.offline Mock.client
                           "POST" "symbols" (Some [("x", JInt 1)]) None None
                           None)
                    eq_refl)).
Defined.

(** X4: a leading slash on the endpoint makes no difference to a call. *)
Theorem make_request_endpoint_leading_slash :
  forall transport self method endpoint params data,
    _make_request transport self method (String PyStr.slash endpoint)
      params data
    = _make_request transport self method endpoint params data.
Proof.
  intros transport self method endpoint params data.
  rewrite !make_request_cases. reflexivity.
Qed.

(** ** Outcomes of a call *)

(** X5: the helper returns a document exactly when the request it sent
    was answered with a status outside 400..599 and a body that decodes
    to that document; in that case it prints nothing. *)
Theorem make_request_returns_iff :
  forall transport self method endpoint params data doc,
    let call := _make_request transport self method endpoint params data in
    (result call = Returns doc <->
     exists req r,
       sent (trace call) = [req]
       /\ transport req = Answer r
       /\ is_error_status (status_code r) = false
       /\ body r = Decodes doc)
    /\ (result call = Returns doc -> printed (trace call) = []).
Proof.
  intros transport self method endpoint params data doc call. subst call.
  rewrite make_request_sent, make_request_cases.
  destruct (request_of self method endpoint params data) as [req |].
  - rewrite exchange_cases. split; [split |].
    + intros H. exists req.
      destruct (transport req) as [r | msg [r |]]; try discriminate H.
      exists r. destruct (is_error_status (status_code r)); [discriminate H |].
      destruct (body r); [| discriminate H].
      simpl in H. inversion H. auto.
    + intros [req' [r [Hs [Ht [He Hb]]]]]. inversion Hs; subst req'.
      now rewrite Ht, He, Hb.
    + intros H.
      destruct (transport req) as [r | msg [r |]]; try discriminate H.
      destruct (is_error_status (status_code r)); [discriminate H |].
      destruct (body r); [reflexivity | discriminate H].
  - split; [split |]; try discriminate.
    intros [req' [r [Hs _]]]. discriminate Hs.
Qed.

Lemma make_request_returns_iff_witness :
  result (_make_request (Mock.always Mock.created) Mock.client "GET" "usage"
            None None) = Returns Mock.created_doc.
Proof.
  apply (proj1 (make_request_returns_iff (Mock.always Mock.created)
                  Mock.client "GET" "usage" None None Mock.created_doc)).
  exists (mkRequest GET "http://localhost:3000/api/external/usage"
            (client_headers Mock.client) None None), Mock.created.
  repeat split.
Defined.

(** X6: when the network fails without any response (connection refused,
    timeout), the helper prints one line with the failure and lets the
    failure through unchanged, after the one attempt. *)
Theorem make_request_transport_failure :
  forall transport self method endpoint params data req msg,
    request_of self method endpoint params data = Some req ->
    transport req = Failure msg None ->
    _make_request transport self method endpoint params data
    = ([Sent req; Printed ("API request error: " ++ msg)],
       Raises (TransportError msg None)).
Proof.
  intros transport self method endpoint params data req msg Hreq Ht.
  now rewrite make_request_cases, Hreq, exchange_cases, Ht.
Qed.

Lemma make_request_transport_failure_witness :
  _make_request Mock.offline Mock.client "GET" "usage" None None
  = ([Sent (mkRequest GET "http://localhost:3000/api/external/usage"
              (client_headers Mock.client) None None);
      Printed "API request error: Connection refused"],
     Raises (TransportError "Connection refused" None)).
Proof.
  apply (make_request_transport_failure Mock.offline Mock.client "GET" "usage"
           None None _ "Connection refused"); reflexivity.
Defined.

(** X7: whenever the helper raises an error of the [requests] library,
    it has sent the request and the first line it printed is
    "API request error: " followed by the text of that error; whenever
    it raises anything else, it has neither sent nor printed anything. *)
Theorem make_request_reports_failures :
  forall transport self method endpoint params data e,
    let call := _make_request transport self method endpoint params data in
    result call = Raises e ->
    if is_RequestException e
    then exists req rest,
        trace call
        = Sent req :: Printed ("API request error: " ++ str e) :: rest
    else trace call = [].
Proof.
  intros transport self method endpoint params data e call H. subst call.
  rewrite make_request_cases in *.
  destruct (request_of self method endpoint params data) as [req |].
  - rewrite exchange_cases in *.
    destruct (transport req) as [r | msg [r |]].
    + destruct (is_error_status (status_code r)).
      * simpl in H. inversion H; subst e. simpl. eauto.
      * destruct (body r); [discriminate H |].
        simpl in H. inversion H; subst e. simpl. eauto.
    + simpl in H. inversion H; subst e. simpl. eauto.
    + simpl in H. inversion H; subst e. simpl. eauto.
  - simpl in H. inversion H; subst e. reflexivity.
Qed.

Lemma make_request_reports_failures_witness :
  exists req rest,
    trace (_make_request (Mock.always Mock.not_found) Mock.client "GET"
             "pages/999" None None)
    = Sent req
      :: Printed ("API request error: "
                  ++ str (HTTPError (http_error_msg Mock.not_found)
                            Mock.not_found))
      :: rest.
Proof.
  exact (make_request_reports_failures (Mock.always Mock.not_found)
           Mock.client "GET" "pages/999" None None
           (HTTPError (http_error_msg Mock.not_found) Mock.not_found)
           eq_refl).
Defined.

(** ** The requests of the operations *)

Lemma make_request_GET_sent transport self endpoint params data :
  sent (trace (_make_request transport self "GET" endpoint params data))
  = [mkRequest GET (request_url self endpoint) (client_headers self)
       params None].
Proof. now rewrite make_request_sent. Qed.

Lemma make_request_POST_sent transport self endpoint params data :
  sent (trace (_make_request transport self "POST" endpoint params data))
  = [mkRequest POST (request_url self endpoint) (client_headers self)
       None data].
Proof. now rewrite make_request_sent. Qed.

(** X8: [get_page], [list_symbols], [list_annotations] and [get_usage]
    each make exactly one GET, without query parameters and without
    body, to [pages/{id}], [symbols/page/{id}], [annotations/page/{id}]
    and [usage]; the id is written in decimal. *)
Theorem read_operations_requests :
  forall transport self id,
    let get path := [mkRequest GET (base_url self ++ "/api/external/" ++ path)
                       (client_headers self) None None] in
    sent (trace (get_page transport self id))
      = get ("pages/" ++ PyStr.of_Z id)
    /\ sent (trace (list_symbols transport self id))
       = get ("symbols/page/" ++ PyStr.of_Z id)
    /\ sent (trace (list_annotations transport self id))
       = get ("annotations/page/" ++ PyStr.of_Z id)
    /\ sent (trace (get_usage transport self)) = get "usage".
Proof.
  intros transport self id get. subst get.
  unfold get_page, list_symbols, list_annotations, get_usage.
  rewrite !make_request_GET_sent. repeat split.
Qed.

(** X9: [get_activity_feed] makes one GET to [activity-feed] whose query
    parameters are limit and offset, in that order, with the values
    given; left out, the limit is 20 and the offset 0. *)
Theorem get_activity_feed_params :
  forall transport self limit offset,
    sent (trace (get_activity_feed transport self limit offset))
    = [mkRequest GET (base_url self ++ "/api/external/activity-feed")
         (client_headers self)
         (Some [("limit", JInt (or_default limit 20%Z));
                ("offset", JInt (or_default offset 0%Z))]) None]
    /\ get_activity_feed transport self None None
       = get_activity_feed transport self (Some 20%Z) (Some 0%Z).
Proof.
  intros transport self limit offset. unfold get_activity_feed.
  rewrite make_request_GET_sent. split; reflexivity.
Qed.

(** X10: whatever the answer, [create_annotation] makes exactly one POST
    to [annotations], without query parameters, whose body has the seven
    fields pageId, x, y, width, height, content and isPublic with the
    values given; left out, isPublic is true. *)
Theorem create_annotation_request :
  forall transport self page_id x y width height content is_public,
    sent (trace (create_annotation transport self page_id x y width height
                   content is_public))
    = [mkRequest POST (base_url self ++ "/api/external/annotations")
         (client_headers self) None
         (Some [("pageId", JInt page_id); ("x", JInt x); ("y", JInt y);
                ("width", JInt width); ("height", JInt height);
                ("content", JStr content);
                ("isPublic", JBool (or_default is_public true))])]
    /\ create_annotation transport self page_id x y width height content None
       = create_annotation transport self page_id x y width height content
           (Some true).
Proof.
  intros transport self page_id x y width height content is_public.
  unfold create_annotation. rewrite make_request_POST_sent.
  split; reflexivity.
Qed.

(** X11: the body of [create_symbol] starts with pageId, x, y, width and
    height, in that order and with the values given; category comes next
    when it is truthy, metadata last when it is truthy; there is no
    other field. *)
Theorem create_symbol_data_fields :
  forall page_id x y width height category metadata,
    create_symbol_data page_id x y width height category metadata
    = ([("pageId", JInt page_id); ("x", JInt x); ("y", JInt y);
        ("width", JInt width); ("height", JInt height)]
       ++ (if truthy category then [("category", category)] else [])
       ++ (if truthy metadata then [("metadata", metadata)] else []))%list.
Proof.
  intros page_id x y width height category metadata.
  unfold create_symbol_data.
  destruct (truthy category), (truthy metadata); reflexivity.
Qed.

(** ** The stored base URL *)

Lemma rstrip_ends_with (c : ascii) (s : string) :
  ends_with c (PyStr.rstrip c s) = false.
Proof.
  induction s as [| a t IH]; simpl; [reflexivity |].
  destruct (PyStr.rstrip c t) as [| b u] eqn:E.
  - destruct (Ascii.eqb a c) eqn:Ea; simpl; [reflexivity | exact Ea].
  - exact IH.
Qed.

Lemma rstrip_unchanged (c : ascii) (s : string) :
  ends_with c s = false -> PyStr.rstrip c s = s.
Proof.
  induction s as [| a t IH]; simpl; [reflexivity |].
  destruct t as [| b u].
  - intros ->. reflexivity.
  - intros H. rewrite (IH H). reflexivity.
Qed.

(** X12: the base URL a client stores never ends with a slash; a base
    URL that does not end with a slash is stored as it is; building a
    client from the stored base URL gives the same client. *)
Theorem init_base_url_normal :
  forall b key,
    ends_with PyStr.slash (base_url (__init__ b key)) = false
    /\ (ends_with PyStr.slash b = false -> base_url (__init__ b key) = b)
    /\ __init__ (base_url (__init__ b key)) key = __init__ b key.
Proof.
  intros b key. simpl. split; [apply rstrip_ends_with |].
  split; [apply rstrip_unchanged |].
  unfold __init__. f_equal. apply rstrip_unchanged, rstrip_ends_with.
Qed.

Lemma init_base_url_normal_witness :
  base_url (__init__ "http://localhost:3000" "secret")
  = "http://localhost:3000".
Proof.
  apply (init_base_url_normal "http://localhost:3000" "secret").
  reflexivity.
Defined.

(** ** The command line driver *)

Lemma init_trailing_slash (b key : string) :
  __init__ (b ++ "/") key = __init__ b key.
Proof. unfold __init__. f_equal. apply (rstrip_snoc PyStr.slash b). Qed.

Lemma sent_app (t u : list event) : sent (t ++ u) = (sent t ++ sent u)%list.
Proof. apply flat_map_app. Qed.

Lemma main_with_key transport base key c :
  key <> EmptyString ->
  main transport (mkNamespace base key (Some c))
  = let run := execute transport (__init__ base key) c in
    match result run with
    | Returns doc =>
        ((trace run ++ [Printed (format_json_output doc)])%list,
         Returns (Some 0%Z))
    | Raises e =>
        ((trace run ++ [Printed ("Error: " ++ str e)])%list,
         Returns (Some 1%Z))
    end.
Proof.
  intros Hk. unfold main. simpl.
  destruct (String.eqb_spec key EmptyString) as [-> | _]; [now elim Hk |].
  destruct (execute transport (__init__ base key) c) as [t [doc | e]];
    reflexivity.
Qed.

Lemma execute_single_call transport self c :
  (length (sent (trace (execute transport self c))) <= 1)%nat.
Proof.
  destruct c; simpl;
    unfold list_pages, get_page, list_symbols, create_symbol,
      list_annotations, create_annotation, vote_on_annotation,
      get_activity_feed, get_leaderboard, get_usage;
    try (rewrite ?make_request_GET_sent, ?make_request_POST_sent;
         simpl; lia).
  - destruct (negb (PyStr.mem type ["upvote"; "downvote"]));
      [simpl; lia | rewrite make_request_POST_sent; simpl; lia].
  - destruct (negb (PyStr.mem (or_default (Some timeframe) "weekly")
                      valid_timeframes));
      [simpl; lia | rewrite make_request_GET_sent; simpl; lia].
Qed.

Lemma main_sent transport base key c :
  key <> EmptyString ->
  sent (fst (__main__ transport (mkNamespace base key (Some c))))
  = sent (trace (execute transport (__init__ base key) c)).
Proof.
  intros Hk. unfold __main__. rewrite (main_with_key transport base key c Hk).
  cbv zeta.
  destruct (result (execute transport (__init__ base key) c)); simpl;
    rewrite sent_app; simpl; apply app_nil_r.
Qed.

(** X13: [main] lets no error escape, and the exit status of the process
    is 0 or 1, whatever the arguments and whatever the network does.
    Without a subcommand it prints the help and stops before it looks at
    the API key: no network call, exit status 0. *)
Theorem main_exit_status :
  forall transport args,
    (exists v, result (main transport args) = Returns v)
    /\ (snd (__main__ transport args) = 0%Z
        \/ snd (__main__ transport args) = 1%Z)
    /\ __main__ transport
         (mkNamespace (args_base_url args) (args_api_key args) None)
       = ([HelpPrinted], 0%Z).
Proof.
  intros transport [base key [c |]].
  - destruct (String.eqb_spec key EmptyString) as [-> | Hk].
    + split; [now exists None | split; [now left | reflexivity]].
    + unfold __main__ at 1 2. rewrite (main_with_key transport base key c Hk).
      cbv zeta.
      destruct (result (execute transport (__init__ base key) c)); simpl;
        split; eauto.
  - split; [now exists None | split; [now left | reflexivity]].
Qed.

(** X14: with an API key, [main] runs the one operation of the
    subcommand and then prints one more line: the pretty-printed result,
    with exit status 0, when the operation returned; "Error: " and the
    text of the error, with exit status 1, when it raised. *)
Theorem main_command_outcome :
  forall transport base key c,
    key <> EmptyString ->
    let run := execute transport (__init__ base key) c in
    __main__ transport (mkNamespace base key (Some c))
    = match result run with
      | Returns doc =>
          ((trace run ++ [Printed (JsonDumps.dumps doc)])%list, 0%Z)
      | Raises e =>
          ((trace run ++ [Printed ("Error: " ++ str e)])%list, 1%Z)
      end.
Proof.
  intros transport base key c Hk run. subst run.
  unfold __main__. rewrite (main_with_key transport base key c Hk).
  cbv zeta.
  destruct (result (execute transport (__init__ base key) c)); reflexivity.
Qed.

Lemma main_command_outcome_witness :
  __main__ Mock.offline (mkNamespace "http://localhost:3000" "secret" (Some Usage))
  = ([Sent (mkRequest GET "http://localhost:3000/api/external/usage"
              (client_headers Mock.client) None None);
      Printed "API request error: Connection refused";
      Printed "Error: Connection refused"], 1%Z).
Proof.
  apply (main_command_outcome Mock.offline "http://localhost:3000" "secret"
           Usage).
  discriminate.
Defined.

(** X15: one run of the command line makes at most one network call. *)
Theorem main_single_call :
  forall transport args,
    (length (sent (fst (__main__ transport args))) <= 1)%nat.
Proof.
  intros transport [base key [c |]].
  - destruct (String.eqb_spec key EmptyString) as [-> | Hk].
    + simpl. lia.
    + unfold __main__. rewrite (main_with_key transport base key c Hk).
      cbv zeta.
      pose proof (execute_single_call transport (__init__ base key) c) as H.
      destruct (result (execute transport (__init__ base key) c)); simpl;
        rewrite sent_app, length_app; simpl; lia.
  - simpl. lia.
Qed.

(** X16: a slash at the end of the base URL makes no difference to a run
    of the command line. *)
Theorem main_base_url_trailing_slash :
  forall transport base key c,
    main transport (mkNamespace (base ++ "/") key c)
    = main transport (mkNamespace base key c).
Proof.
  intros transport base key c. unfold main. simpl.
  now rewrite init_trailing_slash.
Qed.

(** X17: on the command line [--public] changes nothing: the flag is
    true with and without it, so [create-annotation] always sends
    isPublic true. *)
Theorem main_create_annotation_always_public :
  forall transport base key page_id x y width height content present,
    key <> EmptyString ->
    map json_body
      (sent (fst (__main__ transport
                    (mkNamespace base key
                       (Some (CreateAnnotation page_id x y width height
                                content (parse_public present)))))))
    = [Some [("pageId", JInt page_id); ("x", JInt x); ("y", JInt y);
             ("width", JInt width); ("height", JInt height);
             ("content", JStr content); ("isPublic", JBool true)]].
Proof.
  intros transport base key page_id x y width height content present Hk.
  rewrite (main_sent transport base key _ Hk). simpl.
  unfold create_annotation, parse_public, store_true.
  rewrite make_request_POST_sent. now destruct present.
Qed.

Lemma main_create_annotation_always_public_witness :
  map json_body
    (sent (fst (__main__ Mock.offline
                  (mkNamespace "http://localhost:3000" "secret"
                     (Some (CreateAnnotation 1 2 3 4 5 "note"
                              (parse_public false)))))))
  = [Some [("pageId", JInt 1); ("x", JInt 2); ("y", JInt 3);
           ("width", JInt 4); ("height", JInt 5);
           ("content", JStr "note"); ("isPublic", JBool true)]].
Proof.
  apply (main_create_annotation_always_public Mock.offline
           "http://localhost:3000" "secret" 1 2 3 4 5 "note" false).
  discriminate.
Defined.

(** X18: the API key [main] works with is empty, so that it stops with
    the message about the missing key, exactly when [--api-key] is given
    empty, or is not given while [VOYNICH_API_KEY] is unset or empty; an
    option given on the command line wins over the environment. *)
Theorem parse_api_key_empty_iff :
  forall env given,
    (parse_api_key env given = EmptyString <->
     given = Some EmptyString
     \/ (given = None
         /\ (env "VOYNICH_API_KEY" = None
             \/ env "VOYNICH_API_KEY" = Some EmptyString)))
    /\ (forall v, parse_api_key env (Some v) = v)
    /\ (forall v, parse_base_url env (Some v) = v).
Proof.
  intros env given. split; [| split; reflexivity].
  unfold parse_api_key, option_value, environ_get, or_default.
  destruct given as [v |].
  - split.
    + intros ->. now left.
    + intros [H | [H _]]; [now inversion H | discriminate H].
  - destruct (env "VOYNICH_API_KEY") as [v |].
    + split.
      * intros ->. right. split; [reflexivity | now right].
      * intros [H | [_ [H | H]]]; [discriminate H | discriminate H |].
        now inversion H.
    + split; [| reflexivity].
      intros _. right. split; [reflexivity | now left].
Qed.

Lemma parse_api_key_empty_iff_witness :
  parse_api_key (fun _ => Some "from-environment") (Some EmptyString)
  = EmptyString.
Proof.
  apply (proj1 (parse_api_key_empty_iff (fun _ => Some "from-environment")
                  (Some EmptyString))).
  now left.
Defined.



(** X24: with an API key, each subcommand sends the request of its
    operation with the arguments of the command line in their places:
    the offset and limit of [list-pages], the limit and offset of
    [activity], the ids in the paths, the fields of the bodies; [vote]
    and [leaderboard] send nothing for a value that is not allowed. *)
Theorem main_requests :
  forall transport base key c,
    key <> EmptyString ->
    let client := __init__ base key in
    let get path params :=
      mkRequest GET (base_url client ++ "/api/external/" ++ path)
        (client_headers client) params None in
    let post path data :=
      mkRequest POST (base_url client ++ "/api/external/" ++ path)
        (client_headers client) None (Some data) in
    sent (fst (__main__ transport (mkNamespace base key (Some c))))
    = match c with
      | ListPages offset limit =>
          [get "pages" (Some [("offset", JInt offset); ("limit", JInt limit)])]
      | GetPage id => [get ("pages/" ++ PyStr.of_Z id) None]
      | ListSymbols page_id =>
          [get ("symbols/page/" ++ PyStr.of_Z page_id) None]
      | CreateSymbol page_id x y width height category metadata =>
          [post "symbols"
             (create_symbol_data page_id x y width height category metadata)]
      | ListAnnotations page_id =>
          [get ("annotations/page/" ++ PyStr.of_Z page_id) None]
      | CreateAnnotation page_id x y width height content public =>
          [post "annotations"
             [("pageId", JInt page_id); ("x", JInt x); ("y", JInt y);
              ("width", JInt width); ("height", JInt height);
              ("content", JStr content); ("isPublic", JBool public)]]
      | Vote id type =>
          if PyStr.mem type ["upvote"; "downvote"]
          then [post ("annotations/" ++ PyStr.of_Z id ++ "/vote")
                  [("voteType", JStr type)]]
          else []
      | Activity limit offset =>
          [get "activity-feed"
             (Some [("limit", JInt limit); ("offset", JInt offset)])]
      | Leaderboard timeframe =>
          if PyStr.mem timeframe ["daily"; "weekly"; "monthly"; "alltime"]
          then [get "leaderboard" (Some [("timeframe", JStr timeframe)])]
          else []
      | Usage => [get "usage" None]
      end.
Proof.
  intros transport base key c Hk client get post.
  rewrite (main_sent transport base key c Hk). fold client.
  destruct c; simpl execute;
    unfold list_pages, get_page, list_symbols, create_symbol,
      list_annotations, create_annotation, vote_on_annotation,
      get_activity_feed, get_leaderboard, get_usage, or_default;
    try (rewrite ?make_request_GET_sent, ?make_request_POST_sent;
         reflexivity).
  - destruct (PyStr.mem type ["upvote"; "downvote"]); simpl negb; cbv iota;
      [now rewrite make_request_POST_sent | reflexivity].
  - change valid_timeframes with ["daily"; "weekly"; "monthly"; "alltime"].
    destruct (PyStr.mem timeframe ["daily"; "weekly"; "monthly"; "alltime"]);
      simpl negb; cbv iota;
      [now rewrite make_request_GET_sent | reflexivity].
Qed.

Lemma main_requests_witness :
  sent (fst (__main__ Mock.offline
               (mkNamespace "http://localhost:3000" "secret"
                  (Some (Activity 5 10)))))
  = [mkRequest GET "http://localhost:3000/api/external/activity-feed"
       (client_headers Mock.client)
       (Some [("limit", JInt 5); ("offset", JInt 10)]) None].
Proof.
  apply (main_requests Mock.offline "http://localhost:3000" "secret"
           (Activity 5 10)).
  discriminate.
Defined.

(** * Properties of the example workflow *)

Section ExampleProperties.

Import ExampleUsage.

Variable transport : Request -> reply.
Variable wording : failed_op -> json -> string.
Variable container_repr : json -> string.

(** ** How the pieces of a script compose *)

Lemma and_then_ending {A B} (m : Script A) (k : A -> Script B) :
  snd (and_then m k)
  = match snd m with
    | Done a => snd (k a)
    | Failed e => Failed e
    end.
Proof.
  destruct m as [t [a | e]]; simpl; try reflexivity.
  now destruct (k a).
Qed.

Lemma and_then_sent {A B} (m : Script A) (k : A -> Script B) :
  sent (fst (and_then m k))
  = (sent (fst m)
     ++ match snd m with
        | Done a => sent (fst (k a))
        | Failed _ => []
        end)%list.
Proof.
  destruct m as [t [a | e]]; simpl.
  - destruct (k a) as [t' r]. simpl. apply sent_app.
  - now rewrite app_nil_r.
Qed.

Lemma try_ending {A} (m : Script A) (h : error -> Script A) :
  snd (try_ m h)
  = match snd m with
    | Done a => Done a
    | Failed e => snd (h e)
    end.
Proof.
  destruct m as [t [a | e]]; simpl; try reflexivity.
  now destruct (h e).
Qed.

Lemma try_sent {A} (m : Script A) (h : error -> Script A) :
  sent (fst (try_ m h))
  = (sent (fst m)
     ++ match snd m with
        | Done _ => []
        | Failed e => sent (fst (h e))
        end)%list.
Proof.
  destruct m as [t [a | e]]; simpl.
  - now rewrite app_nil_r.
  - destruct (h e) as [t' r]. simpl. apply sent_app.
Qed.

Lemma lift_ending {A} (m : IO A) :
  snd (lift m)
  = match result m with
    | Returns a => Done a
    | Raises e => Failed (ClientError e)
    end.
Proof. now destruct m as [t [a | e]]. Qed.

Lemma lift_sent {A} (m : IO A) : sent (fst (lift m)) = sent (trace m).
Proof. now destruct m as [t [a | e]]. Qed.

Lemma print_section_ending title : snd (print_section title) = Done tt.
Proof. reflexivity. Qed.

Lemma print_section_sent title : sent (fst (print_section title)) = [].
Proof. reflexivity. Qed.

Lemma print_items_ending (l : list json) :
  snd (for_each l (fun x => print_json x >> say EmptyString)) = Done tt.
Proof.
  induction l as [| x rest IH]; [reflexivity |].
  cbn [for_each]. rewrite and_then_ending. exact IH.
Qed.

Lemma print_items_sent (l : list json) :
  sent (fst (for_each l (fun x => print_json x >> say EmptyString))) = [].
Proof.
  induction l as [| x rest IH]; [reflexivity |].
  cbn [for_each]. rewrite and_then_sent. exact IH.
Qed.

Lemma getitem_subscript (v : json) (key : string) :
  getitem v key
  = match subscript v key with
    | Some x => done x
    | None =>
        match v with
        | JObj _ => fail (KeyError key)
        | _ => fail (Unsupported (Subscript key) v)
        end
    end.
Proof.
  destruct v; reflexivity.
Qed.

Lemma getitem_sent (v : json) (key : string) : sent (fst (getitem v key)) = [].
Proof.
  destruct v; try reflexivity. simpl. now destruct (Dict.get fields key).
Qed.

Lemma get_or_sent (v : json) (key : string) (d : json) :
  sent (fst (get_or v key d)) = [].
Proof. now destruct v. Qed.

Lemma len_sent (v : json) : sent (fst (len v)) = [].
Proof. now destruct v. Qed.

Lemma first_two_sent (v : json) : sent (fst (first_two v)) = [].
Proof. now destruct v. Qed.

Lemma items_sent (v : json) : sent (fst (items v)) = [].
Proof. now destruct v. Qed.


(** ** The steps *)

Ltac script_step :=
  first
    [ rewrite and_then_sent | rewrite and_then_ending
    | rewrite try_sent | rewrite try_ending
    | rewrite lift_sent | rewrite lift_ending
    | rewrite print_section_sent | rewrite print_section_ending
    | rewrite print_items_sent | rewrite print_items_ending
    | rewrite getitem_sent | rewrite get_or_sent | rewrite len_sent
    | rewrite first_two_sent | rewrite items_sent
    | progress cbn [say print_json done fail fst snd sent flat_map app] ].

Lemma annotate_ending client page_id :
  snd (annotate transport wording container_repr client page_id) = Done tt.
Proof.
  unfold annotate. cbv zeta.
  rewrite !and_then_ending, print_section_ending. cbn [say snd].
  rewrite try_ending.
  match goal with
  | |- match ?m with _ => _ end = _ => destruct m as [[] | e]; reflexivity
  end.
Qed.

Lemma example_vote_sent client annotation_id :
  sent (trace (ExampleUsage.vote_on_annotation transport container_repr client
                 annotation_id "upvote"))
  = [mkRequest POST
       (base_url client ++ "/api/external/annotations/"
        ++ fmt container_repr annotation_id ++ "/vote")
       (client_headers client) None (Some [("voteType", JStr "upvote")])].
Proof.
  unfold ExampleUsage.vote_on_annotation.
  change (negb (PyStr.mem "upvote" ["upvote"; "downvote"])) with false.
  cbv iota. now rewrite make_request_POST_sent.
Qed.


Lemma annotate_sent :
  forall client page_id,
    let create :=
      mkRequest POST (base_url client ++ "/api/external/annotations")
        (client_headers client) None
        (Some [("pageId", page_id); ("x", JInt 200); ("y", JInt 300);
               ("width", JInt 100); ("height", JInt 80);
               ("content", JStr annotation_content);
               ("isPublic", JBool true)]) in
    let vote id :=
      mkRequest POST
        (base_url client ++ "/api/external/annotations/"
         ++ fmt container_repr id ++ "/vote")
        (client_headers client) None (Some [("voteType", JStr "upvote")]) in
    sent (fst (annotate transport wording container_repr client page_id))
    = create
      :: match result (exchange transport create) with
         | Returns doc =>
             match subscript doc "data" with
             | Some data =>
                 match subscript data "id" with
                 | Some id => [vote id]
                 | None => []
                 end
             | None => []
             end
         | Raises _ => []
         end.
Proof.
  intros client page_id create vote.
  unfold annotate. cbv zeta.
  rewrite and_then_sent, print_section_sent, print_section_ending.
  rewrite and_then_sent. cbn [say fst snd sent flat_map app].
  rewrite try_sent, and_then_sent, lift_sent, lift_ending.
  unfold ExampleUsage.create_annotation at 1 2.
  rewrite make_request_POST_sent, make_request_cases.
  change (request_of client "POST" "annotations" None ?d) with (Some create).
  cbv iota.
  match goal with
  | |- context [match snd ?m with Done _ => [] | Failed e => _ end] =>
      destruct (snd m); cbn [say fst sent flat_map app]
  end;
    rewrite app_nil_r;
    change (request_url client "annotations")
      with (base_url client ++ "/api/external/annotations");
    fold create; cbn [app]; f_equal;
    (destruct (result (exchange transport create)) as [doc | err];
     [| reflexivity]);
    rewrite !and_then_sent; cbn [say print_json fst snd sent flat_map app];
    rewrite getitem_sent, getitem_subscript; cbn [app];
    (destruct (subscript doc "data") as [data |];
     [| destruct doc; reflexivity]);
    cbn [done fst snd];
    rewrite and_then_sent, getitem_sent, getitem_subscript; cbn [app];
    (destruct (subscript data "id") as [id |];
     [| destruct data; reflexivity]);
    cbn [done fst snd];
    rewrite !and_then_sent; cbn [say fst snd sent flat_map app];
    rewrite lift_sent, example_vote_sent;
    match goal with
    | |- context [match snd ?m with Done _ => _ | Failed e => _ end] =>
        destruct (snd m); reflexivity
    end.
Qed.


Ltac script_sent :=
  repeat first
    [ script_step
    | rewrite app_nil_r
    | match goal with
      | |- context [match ?x with Done _ => _ | Failed _ => _ end] =>
          destruct x
      | |- context [if ?b then _ else _] => destruct b
      end ].

Lemma retrieve_page_sent client :
  sent (fst (retrieve_page transport container_repr client))
  = [mkRequest GET (base_url client ++ "/api/external/pages/1")
       (client_headers client) None None].
Proof.
  unfold retrieve_page.
  rewrite and_then_sent, print_section_sent, print_section_ending.
  rewrite and_then_sent. cbn [say fst snd sent flat_map app].
  rewrite and_then_sent, lift_sent.
  unfold get_page. rewrite make_request_GET_sent.
  script_sent; reflexivity.
Qed.

Lemma retrieve_symbols_sent client page_id folio_number :
  sent (fst (retrieve_symbols transport container_repr client page_id
               folio_number))
  = [mkRequest GET
       (base_url client ++ "/api/external/symbols/page/"
        ++ fmt container_repr page_id)
       (client_headers client) None None].
Proof.
  unfold retrieve_symbols.
  rewrite and_then_sent, print_section_sent, print_section_ending.
  rewrite and_then_sent. cbn [say fst snd sent flat_map app].
  rewrite and_then_sent, lift_sent.
  unfold ExampleUsage.list_symbols. rewrite make_request_GET_sent.
  script_sent; reflexivity.
Qed.

Lemma retrieve_activity_sent client :
  sent (fst (retrieve_activity transport client))
  = [mkRequest GET (base_url client ++ "/api/external/activity-feed")
       (client_headers client)
       (Some [("limit", JInt 5); ("offset", JInt 0)]) None].
Proof.
  unfold retrieve_activity.
  rewrite and_then_sent, print_section_sent, print_section_ending.
  rewrite and_then_sent. cbn [say fst snd sent flat_map app].
  rewrite and_then_sent, lift_sent.
  unfold get_activity_feed. rewrite make_request_GET_sent.
  script_sent; reflexivity.
Qed.

Lemma retrieve_leaderboard_sent client :
  sent (fst (retrieve_leaderboard transport client))
  = [mkRequest GET (base_url client ++ "/api/external/leaderboard")
       (client_headers client) (Some [("timeframe", JStr "weekly")]) None].
Proof.
  unfold retrieve_leaderboard.
  rewrite and_then_sent, print_section_sent, print_section_ending.
  rewrite and_then_sent. cbn [say fst snd sent flat_map app].
  rewrite and_then_sent, lift_sent.
  unfold get_leaderboard.
  change (negb (PyStr.mem (or_default (Some "weekly") "weekly")
                  valid_timeframes)) with false.
  cbv iota. rewrite make_request_GET_sent.
  script_sent; reflexivity.
Qed.

Lemma retrieve_usage_sent client :
  sent (fst (retrieve_usage transport client))
  = [mkRequest GET (base_url client ++ "/api/external/usage")
       (client_headers client) None None].
Proof.
  unfold retrieve_usage.
  rewrite and_then_sent, print_section_sent, print_section_ending.
  rewrite and_then_sent. cbn [say fst snd sent flat_map app].
  rewrite and_then_sent, lift_sent.
  unfold get_usage. rewrite make_request_GET_sent.
  script_sent; reflexivity.
Qed.


(** ** The workflow as a whole *)

Lemma workflow_ending client :
  snd (workflow transport wording container_repr client)
  = match snd (retrieve_page transport container_repr client) with
    | Failed e => Failed e
    | Done (page_id, folio) =>
        match snd (retrieve_symbols transport container_repr client page_id
                     folio) with
        | Failed e => Failed e
        | Done _ =>
            match snd (retrieve_activity transport client) with
            | Failed e => Failed e
            | Done _ =>
                match snd (retrieve_leaderboard transport client) with
                | Failed e => Failed e
                | Done _ =>
                    match snd (retrieve_usage transport client) with
                    | Failed e => Failed e
                    | Done _ => Done tt
                    end
                end
            end
        end
    end.
Proof.
  unfold workflow. rewrite and_then_ending.
  destruct (snd (retrieve_page transport container_repr client))
    as [[page_id folio] | e]; [| reflexivity].
  rewrite and_then_ending.
  destruct (snd (retrieve_symbols transport container_repr client page_id
                   folio)); [| reflexivity].
  rewrite and_then_ending, annotate_ending, and_then_ending.
  destruct (snd (retrieve_activity transport client)); [| reflexivity].
  rewrite and_then_ending.
  destruct (snd (retrieve_leaderboard transport client)); [| reflexivity].
  rewrite and_then_ending.
  destruct (snd (retrieve_usage transport client)); reflexivity.
Qed.

Lemma workflow_sent client :
  sent (fst (workflow transport wording container_repr client))
  = (sent (fst (retrieve_page transport container_repr client))
     ++ match snd (retrieve_page transport container_repr client) with
        | Failed _ => []
        | Done (page_id, folio) =>
            sent (fst (retrieve_symbols transport container_repr client
                         page_id folio))
            ++ match snd (retrieve_symbols transport container_repr client
                            page_id folio) with
               | Failed _ => []
               | Done _ =>
                   sent (fst (annotate transport wording container_repr
                                client page_id))
                   ++ sent (fst (retrieve_activity transport client))
                   ++ match snd (retrieve_activity transport client) with
                      | Failed _ => []
                      | Done _ =>
                          sent (fst (retrieve_leaderboard transport client))
                          ++ match snd (retrieve_leaderboard transport
                                          client) with
                             | Failed _ => []
                             | Done _ =>
                                 sent (fst (retrieve_usage transport client))
                             end
                      end
               end
        end)%list.
Proof.
  unfold workflow. rewrite and_then_sent. f_equal.
  destruct (snd (retrieve_page transport container_repr client))
    as [[page_id folio] | e]; [| reflexivity].
  rewrite and_then_sent. f_equal.
  destruct (snd (retrieve_symbols transport container_repr client page_id
                   folio)); [| reflexivity].
  rewrite and_then_sent, annotate_ending. f_equal.
  rewrite and_then_sent. f_equal.
  destruct (snd (retrieve_activity transport client)); [| reflexivity].
  rewrite and_then_sent. f_equal.
  destruct (snd (retrieve_leaderboard transport client)); [| reflexivity].
  rewrite and_then_sent.
  destruct (snd (retrieve_usage transport client));
    rewrite print_section_sent || idtac; now rewrite app_nil_r.
Qed.

Lemma run_example_ending key base :
  snd (run_example transport wording container_repr key base)
  = match snd (workflow transport wording container_repr (__init__ base key))
    with
    | Done _ => Done 0%Z
    | Failed _ => Done 1%Z
    end.
Proof.
  unfold run_example. cbv zeta. rewrite try_ending, and_then_ending.
  destruct (snd (workflow transport wording container_repr
                   (__init__ base key))); reflexivity.
Qed.

Lemma run_example_sent key base :
  sent (fst (run_example transport wording container_repr key base))
  = sent (fst (workflow transport wording container_repr (__init__ base key))).
Proof.
  unfold run_example. cbv zeta. rewrite try_sent, !and_then_sent, and_then_ending.
  destruct (snd (workflow transport wording container_repr
                   (__init__ base key))); cbn [done fst snd sent flat_map];
    now rewrite ?app_nil_r.
Qed.


(** X19: step 3 always ends normally: whatever goes wrong while the
    annotation is created or upvoted (an error of the client, a missing
    key, a document of another shape) is caught inside the step. *)
Theorem annotate_never_aborts :
  forall client page_id,
    snd (annotate transport wording container_repr client page_id) = Done tt.
Proof. exact annotate_ending. Qed.

(** X20: in step 3 the script sends the POST that creates the annotation
    on the page of step 1, at (200, 300) with size 100 by 80 and public;
    it sends one more request only when that POST returned a document
    with an id under "data": the upvote of the annotation with that id.
    Nothing else is sent. *)
Theorem annotate_requests :
  forall client page_id,
    let create :=
      mkRequest POST (base_url client ++ "/api/external/annotations")
        (client_headers client) None
        (Some [("pageId", page_id); ("x", JInt 200); ("y", JInt 300);
               ("width", JInt 100); ("height", JInt 80);
               ("content", JStr annotation_content);
               ("isPublic", JBool true)]) in
    let vote id :=
      mkRequest POST
        (base_url client ++ "/api/external/annotations/"
         ++ fmt container_repr id ++ "/vote")
        (client_headers client) None (Some [("voteType", JStr "upvote")]) in
    sent (fst (annotate transport wording container_repr client page_id))
    = create
      :: match result (exchange transport create) with
         | Returns doc =>
             match subscript doc "data" with
             | Some data =>
                 match subscript data "id" with
                 | Some id => [vote id]
                 | None => []
                 end
             | None => []
             end
         | Raises _ => []
         end.
Proof. exact annotate_sent. Qed.

(** X21: the example script exits with status 0 or 1, whatever the
    arguments and whatever the network does; without an API key it
    prints the message about the missing key, makes no network call and
    exits with status 1. *)
Theorem example_exit_status :
  forall key base,
    (snd (ExampleUsage.__main__ transport wording container_repr key base)
       = 0%Z
     \/ snd (ExampleUsage.__main__ transport wording container_repr key base)
        = 1%Z)
    /\ ExampleUsage.__main__ transport wording container_repr EmptyString base
       = ([Printed ExampleUsage.api_key_required], 1%Z).
Proof.
  intros key base. split; [| reflexivity].
  unfold ExampleUsage.__main__, ExampleUsage.main.
  destruct (String.eqb key EmptyString); [now right |].
  pose proof (run_example_ending key base) as H.
  destruct (run_example transport wording container_repr key base) as [t r].
  simpl in H. subst r.
  destruct (snd (workflow transport wording container_repr
                   (__init__ base key))); [now left | now right].
Qed.

(** X22: [run_example] returns 0 exactly when steps 1, 2, 4, 5 and 6 end
    normally, and 1 otherwise; how step 3 goes plays no part. *)
Theorem run_example_completes_iff :
  forall key base,
    let client := __init__ base key in
    (snd (run_example transport wording container_repr key base) = Done 0%Z
     <-> exists page_id folio,
         snd (retrieve_page transport container_repr client)
           = Done (page_id, folio)
         /\ snd (retrieve_symbols transport container_repr client page_id
                   folio) = Done tt
         /\ snd (retrieve_activity transport client) = Done tt
         /\ snd (retrieve_leaderboard transport client) = Done tt
         /\ snd (retrieve_usage transport client) = Done tt)
    /\ (snd (run_example transport wording container_repr key base)
          <> Done 0%Z ->
        snd (run_example transport wording container_repr key base)
          = Done 1%Z).
Proof.
  intros key base client. subst client.
  rewrite run_example_ending, workflow_ending. split; [split |].
  - intros H.
    destruct (snd (retrieve_page transport container_repr (__init__ base key)))
      as [[page_id folio] | e]; [| discriminate H].
    exists page_id, folio. split; [reflexivity |].
    destruct (snd (retrieve_symbols transport container_repr
                     (__init__ base key) page_id folio)) as [[] | e];
      [| discriminate H].
    destruct (snd (retrieve_activity transport (__init__ base key)))
      as [[] | e]; [| discriminate H].
    destruct (snd (retrieve_leaderboard transport (__init__ base key)))
      as [[] | e]; [| discriminate H].
    destruct (snd (retrieve_usage transport (__init__ base key)))
      as [[] | e]; [| discriminate H].
    repeat split.
  - intros [page_id [folio [H1 [H2 [H3 [H4 H5]]]]]].
    now rewrite H1, H2, H3, H4, H5.
  - intros H.
    destruct (snd (retrieve_page transport container_repr (__init__ base key)))
      as [[page_id folio] | e]; [| reflexivity].
    destruct (snd (retrieve_symbols transport container_repr
                     (__init__ base key) page_id folio)); [| reflexivity].
    destruct (snd (retrieve_activity transport (__init__ base key)));
      [| reflexivity].
    destruct (snd (retrieve_leaderboard transport (__init__ base key)));
      [| reflexivity].
    destruct (snd (retrieve_usage transport (__init__ base key)));
      [now elim H | reflexivity].
Qed.

(** X23: the requests of [run_example] go out in a fixed order: page 1,
    the symbols of the page, the requests of step 3, the activity feed
    with limit 5, the weekly leaderboard, the usage statistics; the
    script stops asking at the first of steps 1, 2, 4, 5 and 6 that
    fails, and never makes more than seven network calls. *)
Theorem run_example_requests :
  forall key base,
    let client := __init__ base key in
    let get path params :=
      mkRequest GET (base_url client ++ "/api/external/" ++ path)
        (client_headers client) params None in
    let requests := sent (fst (run_example transport wording container_repr
                                 key base)) in
    requests
    = get "pages/1" None
      :: match snd (retrieve_page transport container_repr client) with
         | Failed _ => []
         | Done (page_id, folio) =>
             get ("symbols/page/" ++ fmt container_repr page_id) None
             :: match snd (retrieve_symbols transport container_repr client
                             page_id folio) with
                | Failed _ => []
                | Done _ =>
                    (sent (fst (annotate transport wording container_repr
                                  client page_id))
                     ++ get "activity-feed"
                          (Some [("limit", JInt 5); ("offset", JInt 0)])
                        :: match snd (retrieve_activity transport client) with
                           | Failed _ => []
                           | Done _ =>
                               get "leaderboard"
                                 (Some [("timeframe", JStr "weekly")])
                               :: match snd (retrieve_leaderboard transport
                                               client) with
                                  | Failed _ => []
                                  | Done _ => [get "usage" None]
                                  end
                           end)%list
                end
         end
    /\ (length requests <= 7)%nat.
Proof.
  intros key base client get requests.
  assert (Heq : requests
    = get "pages/1" None
      :: match snd (retrieve_page transport container_repr client) with
         | Failed _ => []
         | Done (page_id, folio) =>
             get ("symbols/page/" ++ fmt container_repr page_id) None
             :: match snd (retrieve_symbols transport container_repr client
                             page_id folio) with
                | Failed _ => []
                | Done _ =>
                    (sent (fst (annotate transport wording container_repr
                                  client page_id))
                     ++ get "activity-feed"
                          (Some [("limit", JInt 5); ("offset", JInt 0)])
                        :: match snd (retrieve_activity transport client) with
                           | Failed _ => []
                           | Done _ =>
                               get "leaderboard"
                                 (Some [("timeframe", JStr "weekly")])
                               :: match snd (retrieve_leaderboard transport
                                               client) with
                                  | Failed _ => []
                                  | Done _ => [get "usage" None]
                                  end
                           end)%list
                end
         end).
  { subst requests. rewrite run_example_sent, workflow_sent.
    fold client. rewrite retrieve_page_sent, retrieve_activity_sent,
      retrieve_leaderboard_sent, retrieve_usage_sent.
    cbn [app]. f_equal.
    destruct (snd (retrieve_page transport container_repr client))
      as [[page_id folio] | e]; [| reflexivity].
    rewrite retrieve_symbols_sent. reflexivity. }
  split; [exact Heq |].
  rewrite Heq.
  destruct (snd (retrieve_page transport container_repr client))
    as [[page_id folio] | e]; [| simpl; lia].
  destruct (snd (retrieve_symbols transport container_repr client page_id
                   folio)); [| simpl; lia].
  assert (Ha : (length (sent (fst (annotate transport wording container_repr
                                     client page_id))) <= 2)%nat).
  { rewrite annotate_sent.
    destruct (result (exchange transport _)) as [doc | e]; [| simpl; lia].
    destruct (subscript doc "data") as [data |]; [| simpl; lia].
    destruct (subscript data "id"); simpl; lia. }
  cbn [length]. rewrite length_app.
  destruct (snd (retrieve_activity transport client)); [| simpl; lia].
  destruct (snd (retrieve_leaderboard transport client)); simpl; lia.
Qed.

End ExampleProperties.

Lemma run_example_completes_iff_witness :
  snd (ExampleUsage.run_example (MockServer.server false) MockServer.wording
         MockServer.container_repr "secret" "http://localhost:3000/")
  = ExampleUsage.Done 0%Z.
Proof.
  apply (proj1 (run_example_completes_iff (MockServer.server false)
                  MockServer.wording MockServer.container_repr "secret"
                  "http://localhost:3000/")).
  exists (JInt 1), (JStr "1r"). repeat split.
Defined.

(** On that server the POST of step 3 is refused, and the script goes on
    to the activity feed, the leaderboard and the usage statistics. *)
Example run_example_after_refused_annotation :
  map url
    (sent (fst (ExampleUsage.run_example (MockServer.server false)
                  MockServer.wording MockServer.container_repr "secret"
                  "http://localhost:3000/")))
  = ["http://localhost:3000/api/external/pages/1";
     "http://localhost:3000/api/external/symbols/page/1";
     "http://localhost:3000/api/external/annotations";
     "http://localhost:3000/api/external/activity-feed";
     "http://localhost:3000/api/external/leaderboard";
     "http://localhost:3000/api/external/usage"].
Proof. reflexivity. Qed.
